(** * Subsonic media delivery: [server/subsonic/stream.go]

    A shallow embedding of the two generations of the Subsonic [Stream] and
    [Download] handlers that live in [server/subsonic/stream.go]: the first
    one with the non-seekable delivery written inline in [Stream]
    (module [Legacy], lines 1-164), the second one with the delivery moved
    to [serveStream] and shared with [Download] (module [Refactored],
    lines 165-353).

    Go strings are byte sequences and are modelled by [string]; [int] is
    64 bits wide and is modelled by [Z]; [http.Header] is a [gmap] from
    header names to values. *)

From Stdlib Require Import ZArith List String Ascii Bool Lia DecimalString.
From Stdlib.Strings Require Import Byte.
From Stdlib Require DecimalPos.
From stdpp Require Import base option gmap strings list.

Local Open Scope string_scope.

(** ** The Go standard library, as far as the handlers use it *)

(** The byte [0x22], which closes the file name in [Content-Disposition]. *)
Definition dquote : string := String (ascii_of_nat 34) EmptyString.

Module strings.

(** [strings.HasPrefix(s, prefix)]. *)
Definition HasPrefix (s prefix : string) : bool := String.prefix prefix s.

(** [strings.Split(s, sep)] for a separator of one byte, the only kind the
    handlers pass (["="] and ["-"]).  The result is never empty: a string
    without the separator comes back as its only element. *)
Fixpoint Split (s : string) (sep : ascii) : list string :=
  match s with
  | EmptyString => [EmptyString]
  | String c s' =>
      if Ascii.eqb c sep then EmptyString :: Split s' sep
      else match Split s' sep with
           | p :: ps => String c p :: ps
           | [] => [String c EmptyString]
           end
  end.

(** [strings.ReplaceAll(s, old, new)] for [old] of one byte. *)
Fixpoint ReplaceAll (s : string) (old : ascii) (new : string) : string :=
  match s with
  | EmptyString => EmptyString
  | String c s' =>
      if Ascii.eqb c old then new ++ ReplaceAll s' old new
      else String c (ReplaceAll s' old new)
  end.

End strings.

Module strconv.

(** The two failures of [*strconv.NumError]. *)
Inductive NumError := ErrSyntax | ErrRange.

Definition maxUint64 : Z := 2 ^ 64 - 1.

(** The value of a decimal digit, [None] for any other byte. *)
Definition digit (c : ascii) : option Z :=
  let n := Z.of_N (N_of_ascii c) in
  if (48 <=? n)%Z && (n <=? 57)%Z then Some (n - 48)%Z else None.

(** The loop of [ParseUint(s, 10, 64)]: a byte that is no digit is a
    syntax error; an overflow returns at once, before the bytes after it
    are looked at. *)
Fixpoint ParseUint_loop (s : string) (n : Z) : Z * option NumError :=
  match s with
  | EmptyString => (n, None)
  | String c s' =>
      match digit c with
      | None => (0%Z, Some ErrSyntax)
      | Some d =>
          if (maxUint64 / 10 + 1 <=? n)%Z then (maxUint64, Some ErrRange)
          else
            let n10 := (n * 10)%Z in
            let n1 := ((n10 + d) mod 2 ^ 64)%Z in
            if (n1 <? n10)%Z || (maxUint64 <? n1)%Z
            then (maxUint64, Some ErrRange)
            else ParseUint_loop s' n1
      end
  end.

Definition ParseUint (s : string) : Z * option NumError :=
  match s with
  | EmptyString => (0%Z, Some ErrSyntax)
  | _ => ParseUint_loop s 0
  end.

(** [ParseInt(s, 10, 0)]: an optional sign, then [ParseUint]; the result
    is clamped to the 64-bit range with [ErrRange]. *)
Definition ParseInt (s : string) : Z * option NumError :=
  match s with
  | EmptyString => (0%Z, Some ErrSyntax)
  | String c s' =>
      let neg := Ascii.eqb c "-" in
      let s1 := if Ascii.eqb c "+" || neg then s' else s in
      let '(un, err) := ParseUint s1 in
      match err with
      | Some ErrSyntax => (0%Z, Some ErrSyntax)
      | _ =>
          let cutoff := (2 ^ 63)%Z in
          if negb neg && (cutoff <=? un)%Z then ((cutoff - 1)%Z, Some ErrRange)
          else if neg && (cutoff <? un)%Z then ((- cutoff)%Z, Some ErrRange)
          else ((if neg then - un else un)%Z, None)
      end
  end.

(** The digits loop of the fast path of [Atoi]. *)
Fixpoint Atoi_fast (s : string) (n : Z) : option Z :=
  match s with
  | EmptyString => Some n
  | String ch s' =>
      match digit ch with
      | None => None
      | Some d => Atoi_fast s' (n * 10 + d)%Z
      end
  end.

(** [strconv.Atoi(s)]: the fast path for 1 to 18 bytes, [ParseInt]
    otherwise.  The handlers drop the error and keep the value. *)
Definition Atoi (s : string) : Z * option NumError :=
  let sLen := String.length s in
  if (0 <? sLen)%nat && (sLen <? 19)%nat then
    match s with
    | EmptyString => (0%Z, Some ErrSyntax)
    | String c s' =>
        let signed := Ascii.eqb c "-" || Ascii.eqb c "+" in
        let s1 := if signed then s' else s in
        if signed && (String.length s1 <? 1)%nat then (0%Z, Some ErrSyntax)
        else match Atoi_fast s1 0 with
             | None => (0%Z, Some ErrSyntax)
             | Some n => ((if Ascii.eqb c "-" then - n else n)%Z, None)
             end
    end
  else ParseInt s.

(** [strconv.Itoa(i)]: the decimal rendering, with a minus sign for a
    negative number. *)
Definition Itoa (i : Z) : string := NilZero.string_of_int (Z.to_int i).

End strconv.

Module fmt.

(** [fmt.Sprintf("bytes %d-%d/%d", a, b, c)]. *)
Definition Sprintf_bytes_range (a b c : Z) : string :=
  "bytes " ++ strconv.Itoa a ++ "-" ++ strconv.Itoa b ++ "/" ++ strconv.Itoa c.

(** [fmt.Sprintf("attachment; filename=\"%s.zip\"", name)]. *)
Definition Sprintf_attachment_zip (name : string) : string :=
  "attachment; filename=" ++ dquote ++ name ++ ".zip" ++ dquote.

(** [fmt.Sprintf("attachment; filename=\"%s\"", name)]. *)
Definition Sprintf_attachment (name : string) : string :=
  "attachment; filename=" ++ dquote ++ name ++ dquote.

End fmt.

Module http.

(** [http.Header]: the handlers only [Set] and [Get] single values under
    names that are already canonical. *)
Definition Header_Get (h : gmap string string) (key : string) : string :=
  default "" (h !! key).

(** [http.ResponseWriter], seen from the handler: the live header map
    behind [w.Header()], the status and headers frozen by the first
    [WriteHeader], and the bytes handed to [Write].  The connection stays
    writable: a failed write is only logged by the handlers, and logging is
    left out of the model. *)
Record ResponseWriter := {
  header : gmap string string;
  sent : option (Z * gmap string string);
  body : list byte
}.

(** A response nothing was written to yet. *)
Definition fresh (h : gmap string string) : ResponseWriter :=
  {| header := h; sent := None; body := [] |}.

(** [w.Header().Set(key, value)]: after [WriteHeader] the map still
    changes, the frozen headers do not. *)
Definition Header_Set (key value : string) (w : ResponseWriter) : ResponseWriter :=
  {| header := <[key := value]> (header w); sent := sent w; body := body w |}.

(** [w.WriteHeader(code)]: the first call freezes status and headers, a
    later one is ignored. *)
Definition WriteHeader (code : Z) (w : ResponseWriter) : ResponseWriter :=
  match sent w with
  | Some _ => w
  | None => {| header := header w; sent := Some (code, header w); body := body w |}
  end.

(** [w.Write(p)]: writes the header with status 200 if none was written,
    then appends [p]; the count returned is [len(p)]. *)
Definition Write (p : list byte) (w : ResponseWriter) : ResponseWriter * Z :=
  let w' := WriteHeader 200 w in
  ({| header := header w'; sent := sent w'; body := body w' ++ p |},
   Z.of_nat (length p)).

(** The status and the headers of the response as the handler leaves them:
    a handler that never wrote gets status 200 and the header map as it
    stands.  These are the headers the handler has set; what [net/http] adds
    of its own when it sends them (a [Date], a [Content-Length] for a short
    body that has none) is below the handlers and not modelled. *)
Definition status (w : ResponseWriter) : Z :=
  match sent w with Some (code, _) => code | None => 200%Z end.

Definition headers_out (w : ResponseWriter) : gmap string string :=
  match sent w with Some (_, h) => h | None => header w end.

End http.

(** ** The repository's own types *)

(** [responses.Error...]: the Subsonic error codes the handlers can meet. *)
Inductive ErrorCode :=
  | ErrorGeneric
  | ErrorMissingParameter
  | ErrorAuthorizationFail
  | ErrorDataNotFound.

Inductive Error :=
  | SubsonicError (code : ErrorCode) (message : string)
  | ErrNotFound
  | OtherError (message : string).

(** [newError(code, message)]. *)
Definition newError (code : ErrorCode) (message : string) : Error :=
  SubsonicError code message.

(** What [GetEntityByID] can return; [OtherEntity] stands for any type the
    [switch] of [Download] sends to its [default] branch. *)
Inductive Entity :=
  | MediaFile
  | Album (Name : string)
  | Artist (Name : string)
  | Playlist (Name : string)
  | OtherEntity.

(** [core.Stream]: its attributes, the bytes its source still delivers
    before it ends (by EOF or by a read error, the handlers do not tell them
    apart), and whether [Close] was called.  [Duration] holds the rendering
    [strconv.FormatFloat(float64(stream.Duration()), 'G', -1, 32)]. *)
Record Stream := {
  Name : string;
  ModTime : Z;
  ContentType : string;
  Duration : string;
  Seekable : bool;
  EstimatedContentLength : Z;
  pending : list byte;
  closed : bool
}.

(** [request.Transcoding]: the per-client transcoding profile. *)
Record Transcoding := { TargetFormat : string; DefaultBitRate : Z }.

(** [*http.Request]: method, headers, query parameters and the transcoding
    profile its context may carry. *)
Record Request := {
  Method : string;
  Header : gmap string string;
  Form : gmap string string;
  ctxTranscoding : option Transcoding
}.

Module conf.
(** [conf.Server], the two options the handlers read. *)
Record Server := { EnableDownloads : bool; AutoTranscodeDownload : bool }.
End conf.

(** [core.MediaStreamer]. *)
Record MediaStreamer := {
  NewStream : string -> string -> Z -> Error + Stream
}.

(** Functions of the repository's other packages and of [net/http] that the
    handlers call and whose code is not part of [stream.go]; every result
    below holds for any implementation of them. [ServeContent] receives the
    content as an [io.ReadSeeker] and returns what is left to read. *)
Class Packages := {
  requiredParamString : Request -> string -> Error + string;
  ParamString : Request -> string -> string;
  ParamInt : Request -> string -> Z -> Z;
  ParamBool : Request -> string -> bool -> bool;
  TranscodingFrom : Request -> option Transcoding;
  GetEntityByID : gmap string Entity -> string -> Error + Entity;
  ServeContent :
    http.ResponseWriter -> Request -> string -> Z -> list byte ->
    http.ResponseWriter * list byte
}.

(** ** One request being served *)

(** A goroutine started with [go]: the only one in the file is
    [go func() { _, _ = io.Copy(io.Discard, stream) }()]. *)
Inductive Task := CopyToDiscard.

(** The three kinds of collection [Download] archives. *)
Inductive Collection := AlbumKind | ArtistKind | PlaylistKind.

(** The calls by which a handler reaches the catalog, the streamer and the
    archiver; a handler's [calls] lists them in order.  [Zip_call] is the
    archiver call of the first generation, which takes no format. *)
Inductive Call :=
  | GetEntityByID_call (id : string)
  | NewStream_call (id format : string) (maxBitRate : Z)
  | Zip_call (kind : Collection) (id : string)
  | ZipAs_call (kind : Collection) (id format : string) (maxBitRate : Z).

(** The state a delivery works on: the response, the resolved stream (one
    shared object, read and closed in place) and the goroutines started. *)
Record Conn := {
  conn_w : http.ResponseWriter;
  conn_stream : Stream;
  conn_spawned : list Task
}.

(** A Go function either returns or panics (an index out of range). *)
Inductive outcome (A : Type) := Returned (a : A) | Panicked.
Arguments Returned {A} a.
Arguments Panicked {A}.

#[export] Instance outcome_ret : MRet outcome := fun A a => Returned a.
#[export] Instance outcome_bind : MBind outcome := fun A B f m =>
  match m with Returned a => f a | Panicked => Panicked end.

(** [l[i]]. *)
Definition index {A} (l : list A) (i : nat) : outcome A :=
  match l !! i with Some x => Returned x | None => Panicked end.

Definition M (A : Type) : Type := Conn -> outcome A * Conn.

#[export] Instance M_ret : MRet M := fun A a c => (Returned a, c).
#[export] Instance M_bind : MBind M := fun A B f m c =>
  match m c with
  | (Returned a, c') => f a c'
  | (Panicked, c') => (Panicked, c')
  end.

Definition lift {A} (o : outcome A) : M A := fun c => (o, c).

Definition on_w (f : http.ResponseWriter -> http.ResponseWriter) : M unit := fun c =>
  (Returned tt,
   {| conn_w := f (conn_w c); conn_stream := conn_stream c; conn_spawned := conn_spawned c |}).

Definition Header_Set (key value : string) : M unit := on_w (http.Header_Set key value).
Definition WriteHeader (code : Z) : M unit := on_w (http.WriteHeader code).

Definition Write (p : list byte) : M Z := fun c =>
  let '(w', n) := http.Write p (conn_w c) in
  (Returned n,
   {| conn_w := w'; conn_stream := conn_stream c; conn_spawned := conn_spawned c |}).

Definition the_stream : M Stream := fun c => (Returned (conn_stream c), c).

(** The stream with its source advanced to [rest]. *)
Definition advance (s : Stream) (rest : list byte) : Stream :=
  {| Name := Name s; ModTime := ModTime s; ContentType := ContentType s;
     Duration := Duration s; Seekable := Seekable s;
     EstimatedContentLength := EstimatedContentLength s;
     pending := rest; closed := closed s |}.

(** [stream.Close()]. *)
Definition Close (s : Stream) : Stream :=
  {| Name := Name s; ModTime := ModTime s; ContentType := ContentType s;
     Duration := Duration s; Seekable := Seekable s;
     EstimatedContentLength := EstimatedContentLength s;
     pending := pending s; closed := true |}.

Module io.

(** [io.ReadAll(stream)]: reads until the source ends and returns
    everything read. *)
Definition ReadAll : M (list byte) := fun c =>
  (Returned (pending (conn_stream c)),
   {| conn_w := conn_w c; conn_stream := advance (conn_stream c) [];
      conn_spawned := conn_spawned c |}).

(** [io.Copy(w, stream)]: reads until the source ends and writes what was
    read; a source with nothing left causes no [Write]. *)
Definition Copy : M Z := fun c =>
  let data := pending (conn_stream c) in
  let w' := match data with [] => conn_w c | _ => (http.Write data (conn_w c)).1 end in
  (Returned (Z.of_nat (length data)),
   {| conn_w := w'; conn_stream := advance (conn_stream c) [];
      conn_spawned := conn_spawned c |}).

(** [io.Copy(io.Discard, stream)], the body of the goroutine. *)
Definition Copy_Discard (s : Stream) : Z * Stream :=
  (Z.of_nat (length (pending s)), advance s []).

End io.

(** [go func() { ... }()]. *)
Definition go (t : Task) : M unit := fun c =>
  (Returned tt,
   {| conn_w := conn_w c; conn_stream := conn_stream c;
      conn_spawned := conn_spawned c ++ [t] |}).

(** Modelled from the spec: what [Close] does to a reader is part of
    [core.Stream], which is not in [stream.go]; by the spec closing the
    stream stops the draining and ends the process behind it, so a closed
    stream delivers nothing more.  [run] is a goroutine run to its end on the
    stream it shares with the handler, in the state it finds it in. *)
Definition run (t : Task) (s : Stream) : Stream :=
  match t with
  | CopyToDiscard => if closed s then s else (io.Copy_Discard s).2
  end.

(** [http.ServeContent(w, r, stream.Name(), stream.ModTime(), stream)]. *)
Definition http_ServeContent `{pkgs : Packages} (r : Request) : M unit := fun c =>
  let s := conn_stream c in
  let '(w', rest) := ServeContent (conn_w c) r (Name s) (ModTime s) (pending s) in
  (Returned tt,
   {| conn_w := w'; conn_stream := advance s rest; conn_spawned := conn_spawned c |}).

(** [make([]byte, n)]. *)
Definition make_bytes (n : nat) : list byte := repeat x00 n.

(** Lines 51-58 and 192-199, the same in both generations: the start and end
    positions read from a [Range] value that begins with ["bytes="]. *)
Definition positions (reqRange : string) : outcome (Z * Z) :=
  spec ← index (strings.Split reqRange "=") 1;
  let reqBlockRange := strings.Split spec "-" in
  first ← index reqBlockRange 0;
  let startPosition := (strconv.Atoi first).1 in
  endPosition ←
    (if (1 <? length reqBlockRange)%nat then
       second ← index reqBlockRange 1;
       mret (if negb (String.eqb second "") then (strconv.Atoi second).1 else 0%Z)
     else mret 0%Z);
  mret (startPosition, endPosition).

(** What a handler leaves behind when it is over: the error it returned,
    the response, the stream it resolved (if it got that far) in its final
    state, the goroutines it started, its outside calls, and whether it
    ended in a panic. *)
Record Result := {
  err : option Error;
  response : http.ResponseWriter;
  resolved : option Stream;
  started : list Task;
  calls : list Call;
  panicked : bool
}.

(** A handler that returns before it resolved a stream. *)
Definition returned (e : option Error) (w : http.ResponseWriter) (cs : list Call) : Result :=
  {| err := e; response := w; resolved := None; started := []; calls := cs;
     panicked := false |}.

Definition is_panic {A} (o : outcome A) : bool :=
  match o with Returned _ => false | Panicked => true end.

(** A handler that resolved a stream and runs [body] on it.  With
    [deferred] the handler holds [defer func() { stream.Close() }()], which
    runs on return and on panic alike. *)
Definition serving (deferred : bool) (cs : list Call) (w : http.ResponseWriter)
    (stream : Stream) (body : M unit) : Result :=
  let '(o, c) := body {| conn_w := w; conn_stream := stream; conn_spawned := [] |} in
  {| err := None; response := conn_w c;
     resolved := Some (if deferred then Close (conn_stream c) else conn_stream c);
     started := conn_spawned c; calls := cs; panicked := is_panic o |}.

(** Each chunk an archiver writes is one [Write] on the response. *)
Definition write_all (chunks : list (list byte)) (w : http.ResponseWriter) : http.ResponseWriter :=
  fold_left (fun w p => (http.Write p w).1) chunks w.

(** [setHeaders], the closure of both [Download]s (lines 129-134 and
    319-324). *)
Definition setHeaders (name : string) (w : http.ResponseWriter) : http.ResponseWriter :=
  let name := strings.ReplaceAll name "," "_" in
  let disposition := fmt.Sprintf_attachment_zip name in
  http.Header_Set "Content-Type" "application/zip"
    (http.Header_Set "Content-Disposition" disposition w).

(** ** First generation (lines 1-164) *)

Module Legacy.

(** Modelled from the spec: the archiver ([core.Archiver], not part of
    [stream.go]) takes the response as its output and writes the zip
    container onto the response body; a call is modelled by the chunks it
    writes and the error it returns. *)
Record Archiver := {
  ZipAlbum : string -> list (list byte) * option Error;
  ZipArtist : string -> list (list byte) * option Error;
  ZipPlaylist : string -> list (list byte) * option Error
}.

Record Router := {
  streamer : MediaStreamer;
  archiver : Archiver;
  ds : gmap string Entity
}.

(** Lines 19-109. *)
Definition Stream `{pkgs : Packages} (api : Router) (w : http.ResponseWriter) (r : Request) : Result :=
  match requiredParamString r "id" with
  | inl err => returned (Some err) w []
  | inr id =>
    let maxBitRate := ParamInt r "maxBitRate" 0 in
    let format := ParamString r "format" in
    let estimateContentLength := ParamBool r "estimateContentLength" false in
    match NewStream (streamer api) id format maxBitRate with
    | inl err => returned (Some err) w [NewStream_call id format maxBitRate]
    | inr stream =>
      serving true [NewStream_call id format maxBitRate] w stream (
        Header_Set "X-Content-Type-Options" "nosniff";;
        Header_Set "X-Content-Duration" (Duration stream);;
        if Seekable stream then http_ServeContent r
        else
          let reqRange := http.Header_Get (Header r) "Range" in
          (* [answered]: the probe was sent and line 79 returns *)
          answered ←
            (if negb (String.eqb reqRange "") && strings.HasPrefix reqRange "bytes=" then
               '(startPosition, endPosition) ← lift (positions reqRange);
               if (startPosition =? 0)%Z && (endPosition =? 1)%Z then
                 data ← io.ReadAll;
                 Header_Set "Content-Range"
                   (fmt.Sprintf_bytes_range startPosition endPosition
                      (Z.of_nat (length data)));;
                 Header_Set "Accept-Ranges" "bytes";;
                 Header_Set "Content-Type" "audio/aac";;
                 WriteHeader 206;;
                 Header_Set "Status" "206";;
                 let one := make_bytes 2 in
                 _ ← Write one;
                 mret true
               else mret false
             else mret false);
          if answered : bool then mret tt
          else
            Header_Set "Accept-Ranges" "none";;
            Header_Set "Content-Type" (ContentType stream);;
            (if estimateContentLength then
               let length := strconv.Itoa (EstimatedContentLength stream) in
               Header_Set "Content-Length" length
             else mret tt);;
            if String.eqb (Method r) "HEAD" then go CopyToDiscard
            else _ ← io.Copy; mret tt)
    end
  end.

(** Lines 111-164. *)
Definition Download `{pkgs : Packages} (Server : conf.Server) (api : Router)
    (w : http.ResponseWriter) (r : Request) : Result :=
  match requiredParamString r "id" with
  | inl err => returned (Some err) w []
  | inr id =>
    if negb (conf.EnableDownloads Server) then
      returned (Some (newError ErrorAuthorizationFail "downloads are disabled")) w []
    else
      match GetEntityByID (ds api) id with
      | inl err => returned (Some err) w [GetEntityByID_call id]
      | inr entity =>
        match entity with
        | MediaFile =>
          match NewStream (streamer api) id "raw" 0 with
          | inl err =>
              returned (Some err) w [GetEntityByID_call id; NewStream_call id "raw" 0]
          | inr stream =>
              serving false [GetEntityByID_call id; NewStream_call id "raw" 0] w stream (
                let disposition := fmt.Sprintf_attachment (Name stream) in
                Header_Set "Content-Disposition" disposition;;
                http_ServeContent r)
          end
        | Album name =>
          let '(chunks, err) := ZipAlbum (archiver api) id in
          returned err (write_all chunks (setHeaders name w))
            [GetEntityByID_call id; Zip_call AlbumKind id]
        | Artist name =>
          let '(chunks, err) := ZipArtist (archiver api) id in
          returned err (write_all chunks (setHeaders name w))
            [GetEntityByID_call id; Zip_call ArtistKind id]
        | Playlist name =>
          let '(chunks, err) := ZipPlaylist (archiver api) id in
          returned err (write_all chunks (setHeaders name w))
            [GetEntityByID_call id; Zip_call PlaylistKind id]
        | OtherEntity => returned (Some ErrNotFound) w [GetEntityByID_call id]
        end
      end
  end.

End Legacy.

(** ** Second generation (lines 165-353) *)

Module Refactored.

(** Modelled from the spec: the archiver ([core.Archiver], not part of
    [stream.go]) takes the target format and bitrate shared by the whole
    collection and the response as its output, and writes the zip
    container onto the response body; a call is modelled by the chunks it
    writes and the error it returns. *)
Record Archiver := {
  ZipAlbum : string -> string -> Z -> list (list byte) * option Error;
  ZipArtist : string -> string -> Z -> list (list byte) * option Error;
  ZipPlaylist : string -> string -> Z -> list (list byte) * option Error
}.

Record Router := {
  streamer : MediaStreamer;
  archiver : Archiver;
  ds : gmap string Entity
}.

(** Lines 184-249.  The response [w] and the [stream] it is called with are
    the ones the state carries; [id] only appears in log lines. *)
Definition serveStream `{pkgs : Packages} (r : Request) (id : string) : M unit :=
  stream ← the_stream;
  if Seekable stream then http_ServeContent r
  else
    let reqRange := http.Header_Get (Header r) "Range" in
    if negb (String.eqb reqRange "") && strings.HasPrefix reqRange "bytes=" then
      '(startPosition, endPosition) ← lift (positions reqRange);
      if (startPosition =? 0)%Z && (endPosition =? 1)%Z then
        data ← io.ReadAll;
        Header_Set "Content-Range"
          (fmt.Sprintf_bytes_range startPosition endPosition
             (Z.of_nat (length data)));;
        Header_Set "Accept-Ranges" "bytes";;
        Header_Set "Content-Type" "audio/aac";;
        WriteHeader 206;;
        Header_Set "Status" "206";;
        let one := make_bytes 2 in
        _ ← Write one;
        mret tt
      else mret tt
    else
      Header_Set "Accept-Ranges" "none";;
      Header_Set "Content-Type" (ContentType stream);;
      let estimateContentLength := ParamBool r "estimateContentLength" false in
      (if estimateContentLength then
         let length := strconv.Itoa (EstimatedContentLength stream) in
         Header_Set "Content-Length" length
       else mret tt);;
      if String.eqb (Method r) "HEAD" then go CopyToDiscard
      else _ ← io.Copy; mret tt.

(** Lines 251-278. *)
Definition Stream `{pkgs : Packages} (api : Router) (w : http.ResponseWriter) (r : Request) : Result :=
  match requiredParamString r "id" with
  | inl err => returned (Some err) w []
  | inr id =>
    let maxBitRate := ParamInt r "maxBitRate" 0 in
    let format := ParamString r "format" in
    match NewStream (streamer api) id format maxBitRate with
    | inl err => returned (Some err) w [NewStream_call id format maxBitRate]
    | inr stream =>
      serving true [NewStream_call id format maxBitRate] w stream (
        Header_Set "X-Content-Type-Options" "nosniff";;
        Header_Set "X-Content-Duration" (Duration stream);;
        serveStream r id)
    end
  end.

(** Lines 298-317: the format and bitrate a download is resolved with. *)
Definition effective `{pkgs : Packages} (Server : conf.Server) (r : Request) : string * Z :=
  let maxBitRate := ParamInt r "bitrate" 0 in
  let format := ParamString r "format" in
  if String.eqb format "" then
    if conf.AutoTranscodeDownload Server then
      match TranscodingFrom r with
      | None => ("raw", maxBitRate)
      | Some transcoding => (TargetFormat transcoding, DefaultBitRate transcoding)
      end
    else ("raw", maxBitRate)
  else (format, maxBitRate).

(** Lines 280-353. *)
Definition Download `{pkgs : Packages} (Server : conf.Server) (api : Router)
    (w : http.ResponseWriter) (r : Request) : Result :=
  match requiredParamString r "id" with
  | inl err => returned (Some err) w []
  | inr id =>
    if negb (conf.EnableDownloads Server) then
      returned (Some (newError ErrorAuthorizationFail "downloads are disabled")) w []
    else
      match GetEntityByID (ds api) id with
      | inl err => returned (Some err) w [GetEntityByID_call id]
      | inr entity =>
        let '(format, maxBitRate) := effective Server r in
        match entity with
        | MediaFile =>
          match NewStream (streamer api) id format maxBitRate with
          | inl err =>
              returned (Some err) w
                [GetEntityByID_call id; NewStream_call id format maxBitRate]
          | inr stream =>
              serving false
                [GetEntityByID_call id; NewStream_call id format maxBitRate] w stream (
                let disposition := fmt.Sprintf_attachment (Name stream) in
                Header_Set "Content-Disposition" disposition;;
                serveStream r id)
          end
        | Album name =>
          let '(chunks, err) := ZipAlbum (archiver api) id format maxBitRate in
          returned err (write_all chunks (setHeaders name w))
            [GetEntityByID_call id; ZipAs_call AlbumKind id format maxBitRate]
        | Artist name =>
          let '(chunks, err) := ZipArtist (archiver api) id format maxBitRate in
          returned err (write_all chunks (setHeaders name w))
            [GetEntityByID_call id; ZipAs_call ArtistKind id format maxBitRate]
        | Playlist name =>
          let '(chunks, err) := ZipPlaylist (archiver api) id format maxBitRate in
          returned err (write_all chunks (setHeaders name w))
            [GetEntityByID_call id; ZipAs_call PlaylistKind id format maxBitRate]
        | OtherEntity => returned (Some ErrNotFound) w [GetEntityByID_call id]
        end
      end
  end.

End Refactored.

(** ** Vocabulary of the properties *)

(** The [Range] value of the request is one the non-seekable delivery reads
    positions from: not empty and beginning with ["bytes="]. *)
Definition asks_range (r : Request) : bool :=
  let reqRange := http.Header_Get (Header r) "Range" in
  negb (String.eqb reqRange "") && strings.HasPrefix reqRange "bytes=".

(** The [Range] value of the request parses to start 0 and end 1. *)
Definition is_probe (r : Request) : bool :=
  asks_range r &&
  match positions (http.Header_Get (Header r) "Range") with
  | Returned (startPosition, endPosition) =>
      (startPosition =? 0)%Z && (endPosition =? 1)%Z
  | Panicked => false
  end.

Definition all_digits (s : string) : bool :=
  negb (String.eqb s "") &&
  forallb (fun c => bool_decide (is_Some (strconv.digit c))) (list_ascii_of_string s).

(** The single-range form [bytes=<start>-<end>], both positions given in
    decimal digits. *)
Definition well_formed_range (v : string) : bool :=
  strings.HasPrefix v "bytes=" &&
  match strings.Split (String.substring 6 (String.length v - 6) v) "-" with
  | [first; second] => all_digits first && all_digits second
  | _ => false
  end.

(** The components of a [Range] value the positions are read from: what
    follows the first ["="], cut at every ["-"]. *)
Definition components (reqRange : string) : list string :=
  match strings.Split reqRange "=" with
  | _ :: spec :: _ => strings.Split spec "-"
  | _ => []
  end.

(** The headers of the answer to the probe, for [n] bytes read. *)
Definition probe_headers (n : nat) (h : gmap string string) : gmap string string :=
  <["Content-Type" := "audio/aac"]>
    (<["Accept-Ranges" := "bytes"]>
       (<["Content-Range" := fmt.Sprintf_bytes_range 0 1 (Z.of_nat n)]> h)).

(** The headers of a stream sent whole. *)
Definition whole_headers (stream : Stream) (estimateContentLength : bool)
    (h : gmap string string) : gmap string string :=
  let h' := <["Content-Type" := ContentType stream]> (<["Accept-Ranges" := "none"]> h) in
  if estimateContentLength
  then <["Content-Length" := strconv.Itoa (EstimatedContentLength stream)]> h'
  else h'.

(** The headers [Stream] sets before it delivers. *)
Definition stream_headers (stream : Stream) (h : gmap string string) : gmap string string :=
  <["X-Content-Duration" := Duration stream]> (<["X-Content-Type-Options" := "nosniff"]> h).

(** The delivery started on a response nothing was written to. *)
Definition start (h : gmap string string) (stream : Stream) : Conn :=
  {| conn_w := http.fresh h; conn_stream := stream; conn_spawned := [] |}.

(** The name of a collection, [v.Name] in the [switch] of [Download]. *)
Definition collection_name (entity : Entity) : option string :=
  match entity with
  | Album name | Artist name | Playlist name => Some name
  | MediaFile | OtherEntity => None
  end.

(** The format and bitrate a call hands over. *)
Definition target (c : Call) : option (string * Z) :=
  match c with
  | NewStream_call _ format maxBitRate | ZipAs_call _ _ format maxBitRate =>
      Some (format, maxBitRate)
  | GetEntityByID_call _ | Zip_call _ _ => None
  end.

(** The stream resolutions a call leads to.  Modelled from the spec: the
    archive exporter (not part of [stream.go]) resolves one stream per member
    of the collection, all with the format and bitrate it was called with;
    [members] lists the members of a collection.  The archiver of the first
    generation is given no format and resolves nothing. *)
Definition resolutions (members : string -> list string) (c : Call) : list (string * string * Z) :=
  match c with
  | GetEntityByID_call _ => []
  | NewStream_call id format maxBitRate => [(id, format, maxBitRate)]
  | Zip_call _ _ => []
  | ZipAs_call _ id format maxBitRate => (fun m => (m, format, maxBitRate)) <$> members id
  end.

(** The resolved stream once the handler has returned and the goroutines it
    started have then run on what it left them. *)
Definition afterwards (res : Result) : option Stream :=
  (fun s => fold_left (fun s t => run t s) (started res) s) <$> resolved res.

(** The response is the one of the full-request branch, the only one that
    answers [Accept-Ranges: none]. *)
Definition served_whole (res : Result) : bool :=
  bool_decide (http.headers_out (response res) !! "Accept-Ranges" = Some "none").

(** The header names a non-seekable delivery of [Stream] may set. *)
Definition delivery_headers : list string :=
  ["X-Content-Type-Options"; "X-Content-Duration"; "Content-Range";
   "Accept-Ranges"; "Content-Type"; "Content-Length"].

(** The archiver method the second [Download] calls for an entity. *)
Definition zip_for (a : Refactored.Archiver) (entity : Entity) :
    option (string -> string -> Z -> list (list byte) * option Error) :=
  match entity with
  | Album _ => Some (Refactored.ZipAlbum a)
  | Artist _ => Some (Refactored.ZipArtist a)
  | Playlist _ => Some (Refactored.ZipPlaylist a)
  | MediaFile | OtherEntity => None
  end.

(** The byte of a string at an index. *)
Definition byte_at (s : string) (i : nat) : option ascii := String.get i s.

(** [res] is what [Stream], of either generation, leaves behind for the
    request [r] on a response nothing was written to (its header map being
    [h]), the streamer having resolved the request to [s]. *)
Inductive streams `{pkgs : Packages} (r : Request) (h : gmap string string) (s : Stream) :
    Result -> Prop :=
  | streams_legacy (api : Legacy.Router) (id : string) :
      requiredParamString r "id" = inr id ->
      NewStream (Legacy.streamer api) id (ParamString r "format")
        (ParamInt r "maxBitRate" 0) = inr s ->
      streams r h s (Legacy.Stream api (http.fresh h) r)
  | streams_refactored (api : Refactored.Router) (id : string) :
      requiredParamString r "id" = inr id ->
      NewStream (Refactored.streamer api) id (ParamString r "format")
        (ParamInt r "maxBitRate" 0) = inr s ->
      streams r h s (Refactored.Stream api (http.fresh h) r).

(** [res] is what [Download], of either generation, leaves behind for the
    request [r] under the configuration [Server]. *)
Inductive downloads `{pkgs : Packages} (Server : conf.Server) (r : Request)
    (w : http.ResponseWriter) : Result -> Prop :=
  | downloads_legacy (api : Legacy.Router) :
      downloads Server r w (Legacy.Download Server api w r)
  | downloads_refactored (api : Refactored.Router) :
      downloads Server r w (Refactored.Download Server api w r).

(** ** A concrete server, for the examples *)

Module Fixture.

(** Modelled from the spec: the parameter helpers and the catalog lookup
    are not part of [stream.go]. [id] is required, the other parameters
    are optional with a default; an unknown identity is not found.  The
    stand-in for [http.ServeContent] sends the whole content and knows no
    conditional or range request. *)
Definition packages : Packages := {|
  requiredParamString r param :=
    match Form r !! param with
    | Some v => if String.eqb v "" then inl (newError ErrorMissingParameter param) else inr v
    | None => inl (newError ErrorMissingParameter param)
    end;
  ParamString r param := default "" (Form r !! param);
  ParamInt r param def :=
    match Form r !! param with
    | Some v => match strconv.Atoi v with (n, None) => n | _ => def end
    | None => def
    end;
  ParamBool r param def :=
    match Form r !! param with
    | Some v => String.eqb v "true" || String.eqb v "on" || String.eqb v "1"
    | None => def
    end;
  TranscodingFrom r := ctxTranscoding r;
  GetEntityByID ds id :=
    match ds !! id with Some e => inr e | None => inl ErrNotFound end;
  ServeContent w r name modtime content := ((http.Write content w).1, [])
|}.

(** A live transcode of five bytes, and a stored file. *)
Definition transcode : Stream := {|
  Name := "song.mp3"; ModTime := 0; ContentType := "audio/mpeg"; Duration := "3";
  Seekable := false; EstimatedContentLength := 48000;
  pending := [x01; x02; x03; x04; x05]; closed := false |}.

Definition file : Stream := {|
  Name := "song.flac"; ModTime := 0; ContentType := "audio/flac"; Duration := "3";
  Seekable := true; EstimatedContentLength := 3;
  pending := [x0a; x0b; x0c]; closed := false |}.

(** ["raw"] resolves to the stored file, anything else to a transcode. *)
Definition streamer : MediaStreamer := {|
  NewStream id format maxBitRate :=
    if String.eqb id "song" then
      inr (if String.eqb format "raw" then file else transcode)
    else inl ErrNotFound |}.

Definition catalog : gmap string Entity :=
  <["song" := MediaFile]> (<["album" := Album "Live, Vol. 1"]> ∅).

Definition members (id : string) : list string :=
  if String.eqb id "album" then ["song"; "song2"] else [].

Definition zip_bytes : list (list byte) := [[x50; x4b]].

Definition legacy : Legacy.Router := {|
  Legacy.streamer := streamer;
  Legacy.archiver := {|
    Legacy.ZipAlbum _ := (zip_bytes, None);
    Legacy.ZipArtist _ := (zip_bytes, None);
    Legacy.ZipPlaylist _ := (zip_bytes, None) |};
  Legacy.ds := catalog |}.

Definition api : Refactored.Router := {|
  Refactored.streamer := streamer;
  Refactored.archiver := {|
    Refactored.ZipAlbum _ _ _ := (zip_bytes, None);
    Refactored.ZipArtist _ _ _ := (zip_bytes, None);
    Refactored.ZipPlaylist _ _ _ := (zip_bytes, None) |};
  Refactored.ds := catalog |}.

Definition enabled : conf.Server :=
  {| conf.EnableDownloads := true; conf.AutoTranscodeDownload := false |}.

Definition disabled : conf.Server :=
  {| conf.EnableDownloads := false; conf.AutoTranscodeDownload := false |}.

(** A request for [id] with the given method, [Range] value (none when
    empty) and further parameters. *)
Definition request (method range id : string) (params : list (string * string)) : Request := {|
  Method := method;
  Header := if String.eqb range "" then ∅ else {[ "Range" := range ]};
  Form := list_to_map (("id", id) :: params);
  ctxTranscoding := None |}.

(** A request that names no [id]. *)
Definition anonymous : Request :=
  {| Method := "GET"; Header := ∅; Form := ∅; ctxTranscoding := None |}.

(** The handlers of both generations run on this server, on a response
    nothing was written to. *)
Definition stream_legacy (r : Request) : Result :=
  Legacy.Stream (pkgs := packages) legacy (http.fresh ∅) r.

Definition stream_refactored (r : Request) : Result :=
  Refactored.Stream (pkgs := packages) api (http.fresh ∅) r.

Definition download_legacy (Server : conf.Server) (r : Request) : Result :=
  Legacy.Download (pkgs := packages) Server legacy (http.fresh ∅) r.

Definition download_refactored (Server : conf.Server) (r : Request) : Result :=
  Refactored.Download (pkgs := packages) Server api (http.fresh ∅) r.

(** A [Range] value with a start that is no number, and the same sent
    with [HEAD]. *)
Definition garbled : Request := request "GET" "bytes=x-1" "song" [].
Definition inquiring : Request := request "HEAD" "bytes=0-1" "song" [].

(** Plain requests without a [Range]. *)
Definition plain (method : string) : Request :=
  request method "" "song" [("estimateContentLength", "true")].

(** An open-ended range, as browsers send it. *)
Definition open_ended : Request := request "GET" "bytes=0-" "song" [].

(** A server that transcodes downloads after the client's profile, a
    request that carries such a profile, one that names its format, and one
    for an identity the catalog does not know. *)
Definition auto : conf.Server :=
  {| conf.EnableDownloads := true; conf.AutoTranscodeDownload := true |}.

Definition profiled : Request := {|
  Method := "GET"; Header := ∅;
  Form := list_to_map [("id", "album"); ("bitrate", "320")];
  ctxTranscoding := Some {| TargetFormat := "opus"; DefaultBitRate := 96 |} |}.

Definition explicit : Request :=
  request "GET" "" "album" [("format", "mp3"); ("bitrate", "192")].

Definition raw : Request := request "GET" "" "song" [("format", "raw")].

Definition unknown : Request := request "GET" "" "nothing" [].

(** A range of further positions after the probe's. *)
Definition trailing : Request := request "GET" "bytes=0-1-9,20-30" "song" [].

(** The probe, asking for an estimated content length as well. *)
Definition probing : Request :=
  request "GET" "bytes=0-1" "song" [("estimateContentLength", "true")].

End Fixture.


(** Runs the monadic steps of a delivery that are in head position. *)
Ltac steps :=
  unfold mbind, mret, M_bind, M_ret, outcome_bind, outcome_ret, the_stream,
    Header_Set, WriteHeader, on_w, Write, lift, io.ReadAll, io.Copy, go, start,
    http.Write, http.WriteHeader, http.Header_Set, http.fresh; cbn.

(** ** Strings and positions *)

Lemma Split_cons (s : string) (sep : ascii) :
  exists p ps, strings.Split s sep = p :: ps.
Proof.
  induction s as [|c s IH]; simpl; [by eauto|].
  destruct (Ascii.eqb c sep); [by eauto|].
  destruct IH as (p & ps & ->). by eauto.
Qed.

Lemma HasPrefix_app (s prefix : string) :
  strings.HasPrefix s prefix = true -> exists rest, s = prefix ++ rest.
Proof.
  unfold strings.HasPrefix. revert s.
  induction prefix as [|a p IH]; intros s H; [by exists s|].
  destruct s as [|b s]; cbn [String.prefix] in H; [discriminate|].
  destruct (ascii_dec a b) as [<-|]; [|discriminate].
  destruct (IH s H) as [rest ->]. by exists rest.
Qed.

Lemma positions_returns (reqRange : string) :
  strings.HasPrefix reqRange "bytes=" = true ->
  exists startPosition endPosition,
    positions reqRange = Returned (startPosition, endPosition).
Proof.
  intros [rest ->]%HasPrefix_app. unfold positions. simpl.
  destruct (Split_cons ("" ++ rest) "=") as (spec & ps & ->). simpl.
  destruct (Split_cons spec "-") as (p0 & [|p1 tl] & ->); simpl; by eauto.
Qed.

(** ** The delivery, case by case *)

Section Delivery.
Context {pkgs : Packages}.

Lemma is_probe_inv (r : Request) :
  is_probe r = true ->
  asks_range r = true /\
  positions (http.Header_Get (Header r) "Range") = Returned (0%Z, 1%Z).
Proof.
  unfold is_probe. intros [Ha Hp]%andb_prop. split; [done|].
  destruct (positions _) as [[a b]|]; [|discriminate].
  apply andb_prop in Hp as [->%Z.eqb_eq ->%Z.eqb_eq]. done.
Qed.

Lemma not_probe_inv (r : Request) :
  asks_range r = true -> is_probe r = false ->
  exists a b, positions (http.Header_Get (Header r) "Range") = Returned (a, b) /\
              ((a =? 0)%Z && (b =? 1)%Z) = false.
Proof.
  unfold is_probe. intros Ha Hp. rewrite Ha in Hp. simpl in Hp.
  unfold asks_range in Ha. apply andb_prop in Ha as [_ Hpre].
  destruct (positions_returns _ Hpre) as (a & b & Hab).
  rewrite Hab in Hp. by exists a, b.
Qed.

Lemma is_probe_asks (r : Request) : asks_range r = false -> is_probe r = false.
Proof. unfold is_probe. by intros ->. Qed.

(** *** [serveStream] *)

Lemma serveStream_probe (r : Request) (id : string) (h : gmap string string) (s : Stream) :
  Seekable s = false -> is_probe r = true ->
  Refactored.serveStream r id (start h s) =
    (Returned tt,
     {| conn_w := {| http.header := <["Status" := "206"]> (probe_headers (length (pending s)) h);
                     http.sent := Some (206%Z, probe_headers (length (pending s)) h);
                     http.body := make_bytes 2 |};
        conn_stream := advance s [];
        conn_spawned := [] |}).
Proof.
  intros Hs [Ha Hp]%is_probe_inv. unfold Refactored.serveStream.
  unfold asks_range in Ha. steps. rewrite Hs, Ha, Hp. by steps.
Qed.

Lemma serveStream_other_range (r : Request) (id : string) (c : Conn) :
  Seekable (conn_stream c) = false -> asks_range r = true -> is_probe r = false ->
  Refactored.serveStream r id c = (Returned tt, c).
Proof.
  intros Hs Ha Hp. destruct (not_probe_inv r Ha Hp) as (a & b & Hab & Hne).
  unfold Refactored.serveStream. unfold asks_range in Ha.
  steps. rewrite Hs, Ha, Hab. steps. by rewrite Hne.
Qed.

Lemma serveStream_whole (r : Request) (id : string) (h : gmap string string) (s : Stream) :
  Seekable s = false -> asks_range r = false ->
  let estimateContentLength := ParamBool r "estimateContentLength" false in
  let c := (Refactored.serveStream r id (start h s)).2 in
  (Refactored.serveStream r id (start h s)).1 = Returned tt /\
  http.status (conn_w c) = 200%Z /\
  http.headers_out (conn_w c) = whole_headers s estimateContentLength h /\
  http.body (conn_w c) = (if String.eqb (Method r) "HEAD" then [] else pending s) /\
  conn_stream c = (if String.eqb (Method r) "HEAD" then s else advance s []) /\
  conn_spawned c = (if String.eqb (Method r) "HEAD" then [CopyToDiscard] else []).
Proof.
  intros Hs Ha. unfold Refactored.serveStream, whole_headers. unfold asks_range in Ha.
  steps. rewrite Hs, Ha.
  destruct (ParamBool r "estimateContentLength" false);
    destruct (String.eqb (Method r) "HEAD"); steps;
    destruct (pending s); by steps.
Qed.

Lemma serveStream_does_not_close (r : Request) (id : string) (c : Conn) :
  closed (conn_stream (Refactored.serveStream r id c).2) = closed (conn_stream c).
Proof.
  unfold Refactored.serveStream. steps.
  destruct (Seekable (conn_stream c)).
  { unfold http_ServeContent. by destruct (ServeContent _ _ _ _ _). }
  destruct (_ && _).
  - destruct (positions _) as [[a b]|]; [|done]. steps.
    by destruct (_ && _).
  - destruct (ParamBool _ _ _); destruct (String.eqb _ _); by steps.
Qed.

(** *** [Stream], both generations *)

Lemma Refactored_Stream_serves (api : Refactored.Router) (r : Request)
    (h : gmap string string) (id : string) (s : Stream) :
  requiredParamString r "id" = inr id ->
  NewStream (Refactored.streamer api) id (ParamString r "format")
    (ParamInt r "maxBitRate" 0) = inr s ->
  Refactored.Stream api (http.fresh h) r =
    let oc := Refactored.serveStream r id (start (stream_headers s h) s) in
    {| err := None; response := conn_w oc.2;
       resolved := Some (Close (conn_stream oc.2));
       started := conn_spawned oc.2;
       calls := [NewStream_call id (ParamString r "format") (ParamInt r "maxBitRate" 0)];
       panicked := is_panic oc.1 |}.
Proof.
  intros Hid Hns. unfold Refactored.Stream, serving. rewrite Hid, Hns. steps.
  unfold stream_headers. by destruct (Refactored.serveStream _ _ _).
Qed.

Lemma Stream_probe (r : Request) (h : gmap string string) (s : Stream) (res : Result) :
  streams r h s res -> Seekable s = false -> is_probe r = true ->
  err res = None /\
  response res =
    {| http.header :=
         <["Status" := "206"]> (probe_headers (length (pending s)) (stream_headers s h));
       http.sent := Some (206%Z, probe_headers (length (pending s)) (stream_headers s h));
       http.body := make_bytes 2 |} /\
  resolved res = Some (Close (advance s [])) /\
  started res = [] /\
  panicked res = false.
Proof.
  intros [api id Hid Hns|api id Hid Hns] Hs Hp.
  - destruct (is_probe_inv r Hp) as [Ha Hpos]. unfold asks_range in Ha.
    unfold Legacy.Stream, serving. rewrite Hid, Hns. steps.
    rewrite Hs, Ha, Hpos. by steps.
  - rewrite (Refactored_Stream_serves api r h id s Hid Hns).
    by rewrite serveStream_probe.
Qed.

Lemma Stream_whole (r : Request) (h : gmap string string) (s : Stream) (res : Result) :
  streams r h s res -> Seekable s = false -> asks_range r = false ->
  let estimateContentLength := ParamBool r "estimateContentLength" false in
  let HEAD := String.eqb (Method r) "HEAD" in
  err res = None /\
  http.status (response res) = 200%Z /\
  http.headers_out (response res) =
    whole_headers s estimateContentLength (stream_headers s h) /\
  http.body (response res) = (if HEAD then [] else pending s) /\
  resolved res = Some (Close (if HEAD then s else advance s [])) /\
  started res = (if HEAD then [CopyToDiscard] else []) /\
  panicked res = false.
Proof.
  intros [api id Hid Hns|api id Hid Hns] Hs Ha.
  - unfold asks_range in Ha.
    unfold Legacy.Stream, serving, whole_headers, stream_headers. rewrite Hid, Hns. steps.
    rewrite Hs, Ha. steps.
    destruct (ParamBool r "estimateContentLength" false);
      destruct (String.eqb (Method r) "HEAD"); steps;
      destruct (pending s); by steps.
  - rewrite (Refactored_Stream_serves api r h id s Hid Hns).
    destruct (serveStream_whole r id (stream_headers s h) s Hs Ha)
      as (Ho & Hst & Hh & Hb & Hstream & Hsp).
    cbn. rewrite Ho, Hstream, Hsp. by repeat split.
Qed.

(** A range other than 0-1: the first generation sends the stream whole,
    the second one does nothing at all. *)
Lemma Legacy_Stream_other_range (api : Legacy.Router) (r : Request)
    (h : gmap string string) (id : string) (s : Stream) :
  requiredParamString r "id" = inr id ->
  NewStream (Legacy.streamer api) id (ParamString r "format")
    (ParamInt r "maxBitRate" 0) = inr s ->
  Seekable s = false -> asks_range r = true -> is_probe r = false ->
  let res := Legacy.Stream api (http.fresh h) r in
  let estimateContentLength := ParamBool r "estimateContentLength" false in
  let HEAD := String.eqb (Method r) "HEAD" in
  err res = None /\
  http.status (response res) = 200%Z /\
  http.headers_out (response res) =
    whole_headers s estimateContentLength (stream_headers s h) /\
  http.body (response res) = (if HEAD then [] else pending s) /\
  resolved res = Some (Close (if HEAD then s else advance s [])) /\
  started res = (if HEAD then [CopyToDiscard] else []) /\
  panicked res = false.
Proof.
  intros Hid Hns Hs Ha Hp. destruct (not_probe_inv r Ha Hp) as (a & b & Hab & Hne).
  unfold asks_range in Ha.
  unfold Legacy.Stream, serving, whole_headers, stream_headers. rewrite Hid, Hns. steps.
  rewrite Hs, Ha, Hab. steps. rewrite Hne. steps.
  destruct (ParamBool r "estimateContentLength" false);
    destruct (String.eqb (Method r) "HEAD"); steps;
    destruct (pending s); by steps.
Qed.

Lemma Refactored_Stream_other_range (api : Refactored.Router) (r : Request)
    (h : gmap string string) (id : string) (s : Stream) :
  requiredParamString r "id" = inr id ->
  NewStream (Refactored.streamer api) id (ParamString r "format")
    (ParamInt r "maxBitRate" 0) = inr s ->
  Seekable s = false -> asks_range r = true -> is_probe r = false ->
  let res := Refactored.Stream api (http.fresh h) r in
  err res = None /\
  response res = http.fresh (stream_headers s h) /\
  resolved res = Some (Close s) /\
  started res = [] /\
  panicked res = false.
Proof.
  intros Hid Hns Hs Ha Hp.
  rewrite (Refactored_Stream_serves api r h id s Hid Hns).
  by rewrite serveStream_other_range.
Qed.

(** X2: [Stream] closes the stream it resolved, whatever happens in between. *)
Lemma Stream_closes (r : Request) (h : gmap string string) (s : Stream) (res : Result) :
  streams r h s res -> exists s', resolved res = Some s' /\ closed s' = true.
Proof.
  intros [api id Hid Hns|api id Hid Hns].
  - unfold Legacy.Stream, serving. rewrite Hid, Hns.
    match goal with |- context [match ?x with pair _ _ => _ end] => destruct x as [o c] end.
    by eauto.
  - rewrite (Refactored_Stream_serves api r h id s Hid Hns). by eauto.
Qed.

(** No index of the range parsing is out of range: [Stream] never panics. *)
Lemma Stream_does_not_panic (r : Request) (h : gmap string string) (s : Stream)
    (res : Result) :
  streams r h s res -> panicked res = false.
Proof.
  intros Hres. destruct (Seekable s) eqn:Hs.
  - destruct Hres as [api id Hid Hns|api id Hid Hns].
    + unfold Legacy.Stream, serving. rewrite Hid, Hns. steps. rewrite Hs.
      unfold http_ServeContent. cbn. by destruct (ServeContent _ _ _ _ _).
    + rewrite (Refactored_Stream_serves api r h id s Hid Hns).
      unfold Refactored.serveStream. steps. rewrite Hs.
      unfold http_ServeContent. cbn. by destruct (ServeContent _ _ _ _ _).
  - destruct (asks_range r) eqn:Ha; [destruct (is_probe r) eqn:Hp|].
    + by destruct (Stream_probe r h s res Hres Hs Hp) as (_ & _ & _ & _ & ?).
    + destruct Hres as [api id Hid Hns|api id Hid Hns].
      * by destruct (Legacy_Stream_other_range api r h id s Hid Hns Hs Ha Hp)
          as (_ & _ & _ & _ & _ & _ & ?).
      * by destruct (Refactored_Stream_other_range api r h id s Hid Hns Hs Ha Hp)
          as (_ & _ & _ & _ & ?).
    + by destruct (Stream_whole r h s res Hres Hs Ha) as (_ & _ & _ & _ & _ & _ & ?).
Qed.
End Delivery.

(** ** The capability probe *)

Section Probe.
Context {pkgs : Packages}.

Lemma probe_headers_lookup (n : nat) (h : gmap string string) :
  probe_headers n h !! "Content-Range"
    = Some (fmt.Sprintf_bytes_range 0 1 (Z.of_nat n)) /\
  probe_headers n h !! "Accept-Ranges" = Some "bytes" /\
  probe_headers n h !! "Content-Type" = Some "audio/aac" /\
  probe_headers n h !! "Content-Length" = h !! "Content-Length".
Proof. unfold probe_headers. by simplify_map_eq. Qed.

(** C1 (as amended): for a non-seekable stream and a request whose [Range]
    value parses to start 0 and end 1, [Stream] of either generation
    answers with status 206, [Content-Range: bytes 0-1/N] where [N] counts
    all the bytes [io.ReadAll] read from the stream, [Accept-Ranges: bytes],
    [Content-Type: audio/aac], and a body of two zero bytes, the fresh
    buffer [make([]byte, 2)]; the bytes read from the stream are not sent. *)
Theorem probe_response (r : Request) (h : gmap string string) (s : Stream) (res : Result) :
  streams r h s res -> Seekable s = false -> is_probe r = true ->
  http.status (response res) = 206%Z /\
  http.headers_out (response res) !! "Content-Range"
    = Some (fmt.Sprintf_bytes_range 0 1 (Z.of_nat (length (pending s)))) /\
  http.headers_out (response res) !! "Accept-Ranges" = Some "bytes" /\
  http.headers_out (response res) !! "Content-Type" = Some "audio/aac" /\
  http.body (response res) = [x00; x00].
Proof.
  intros Hres Hs Hp.
  destruct (Stream_probe r h s res Hres Hs Hp) as (_ & -> & _).
  destruct (probe_headers_lookup (length (pending s)) (stream_headers s h))
    as (? & ? & ? & _).
  by cbn.
Qed.

(** C2 (as amended): in the probe path the handler reads the stream to its
    end before it answers ([io.ReadAll]); nothing of the stream is left
    unread when the handler returns, and no goroutine is started. *)
Theorem probe_reads_whole_stream (r : Request) (h : gmap string string) (s : Stream)
    (res : Result) :
  streams r h s res -> Seekable s = false -> is_probe r = true ->
  exists s', resolved res = Some s' /\ pending s' = [] /\ started res = [].
Proof.
  intros Hres Hs Hp.
  destruct (Stream_probe r h s res Hres Hs Hp) as (_ & _ & -> & -> & _).
  by eauto.
Qed.
End Probe.

(** C1 as stated fails: the stream delivers [01 02 03 04 05], the answer to
    the probe counts 5 bytes, and its body is [00 00], not [01 02]. *)
Lemma probe_body_not_from_stream :
  NewStream Fixture.streamer "song" "" 0 = inr Fixture.transcode /\
  Seekable Fixture.transcode = false /\
  is_probe Fixture.probing = true /\
  take 2 (pending Fixture.transcode) = [x01; x02] /\
  http.body (response (Fixture.stream_legacy Fixture.probing)) = [x00; x00] /\
  http.body (response (Fixture.stream_refactored Fixture.probing)) = [x00; x00] /\
  http.headers_out (response (Fixture.stream_refactored Fixture.probing)) !! "Content-Range"
    = Some "bytes 0-1/5".
Proof. repeat split; by vm_compute. Qed.

Lemma probe_response_witness :
  is_probe Fixture.probing = true /\
  http.status (response (Fixture.stream_refactored Fixture.probing)) = 206%Z /\
  http.body (response (Fixture.stream_refactored Fixture.probing)) = [x00; x00].
Proof.
  split; [reflexivity|].
  destruct (probe_response (pkgs := Fixture.packages) Fixture.probing ∅ Fixture.transcode
              (Fixture.stream_refactored Fixture.probing)) as (H1 & _ & _ & _ & H2);
    [by apply (streams_refactored _ _ _ Fixture.api "song")|reflexivity|reflexivity|].
  exact (conj H1 H2).
Defined.

(** C2 as stated fails: after the probe was answered nothing of the five
    bytes is left in the stream, where the claim leaves the three bytes
    after the probe's two unread. *)
Lemma probe_drains_stream :
  is_probe Fixture.probing = true /\
  drop 2 (pending Fixture.transcode) = [x03; x04; x05] /\
  pending <$> resolved (Fixture.stream_legacy Fixture.probing) = Some [] /\
  pending <$> resolved (Fixture.stream_refactored Fixture.probing) = Some [].
Proof. repeat split; by vm_compute. Qed.

Lemma probe_reads_whole_stream_witness :
  is_probe Fixture.probing = true /\
  exists s', resolved (Fixture.stream_legacy Fixture.probing) = Some s' /\
             pending s' = [] /\ started (Fixture.stream_legacy Fixture.probing) = [].
Proof.
  split; [reflexivity|].
  apply (probe_reads_whole_stream (pkgs := Fixture.packages) Fixture.probing ∅
           Fixture.transcode);
    [by apply (streams_legacy _ _ _ Fixture.legacy "song")|reflexivity|reflexivity].
Defined.

(** ** Requests without a range the delivery reads *)

Lemma Atoi_syntax_zero (s : string) :
  (strconv.Atoi s).2 = Some strconv.ErrSyntax -> (strconv.Atoi s).1 = 0%Z.
Proof.
  unfold strconv.Atoi. destruct (_ && _).
  - destruct s as [|c s']; [done|].
    destruct (_ && _); [done|]. by destruct (strconv.Atoi_fast _ _).
  - unfold strconv.ParseInt. destruct s as [|c s']; [done|].
    destruct (strconv.ParseUint _) as [un [[]|]]; cbn; [done| |];
      repeat (destruct (_ && _); cbn; try done).
Qed.

Lemma positions_defaults (reqRange : string) :
  strings.HasPrefix reqRange "bytes=" = true ->
  exists startPosition endPosition,
    positions reqRange = Returned (startPosition, endPosition) /\
    (forall first, components reqRange !! 0%nat = Some first ->
       (strconv.Atoi first).2 = Some strconv.ErrSyntax -> startPosition = 0%Z) /\
    (components reqRange !! 1%nat = None -> endPosition = 0%Z) /\
    (forall second, components reqRange !! 1%nat = Some second ->
       second = "" \/ (strconv.Atoi second).2 = Some strconv.ErrSyntax ->
       endPosition = 0%Z).
Proof.
  intros [rest ->]%HasPrefix_app. unfold positions, components. simpl.
  destruct (Split_cons ("" ++ rest) "=") as (spec & ps & ->). simpl.
  destruct (Split_cons spec "-") as (p0 & [|p1 tl] & ->); simpl.
  - eexists _, _. split; [done|]. repeat split.
    intros first [= <-]. apply Atoi_syntax_zero.
  - eexists _, _. split; [done|]. repeat split; try done.
    + intros first [= <-]. apply Atoi_syntax_zero.
    + intros second [= <-] [->|Herr]; [done|].
      destruct (String.eqb p1 ""); [done|]. by apply Atoi_syntax_zero.
Qed.

Section Whole.
Context {pkgs : Packages}.

Lemma whole_headers_lookup (s : Stream) (estimateContentLength : bool)
    (h : gmap string string) :
  whole_headers s estimateContentLength (stream_headers s h) !! "Accept-Ranges"
    = Some "none" /\
  whole_headers s estimateContentLength (stream_headers s h) !! "Content-Type"
    = Some (ContentType s) /\
  whole_headers s estimateContentLength (stream_headers s h) !! "Content-Length"
    = (if estimateContentLength
       then Some (strconv.Itoa (EstimatedContentLength s))
       else h !! "Content-Length").
Proof.
  unfold whole_headers, stream_headers.
  destruct estimateContentLength; by simplify_map_eq.
Qed.

(** C3 (as amended): on a non-seekable stream a request whose [Range]
    value is absent or does not begin with ["bytes="] is served whole by
    [Stream] of either generation: [Accept-Ranges: none], [Content-Type]
    from the stream, and the stream copied to the body unless the method is
    [HEAD].  In a value that begins with ["bytes="] a start that is no
    number counts as 0, and an end that is missing, empty or no number
    counts as 0; such a value is then served by its positions (as the probe
    when they are 0 and 1), not as a request without a range. *)
Theorem range_absent_or_foreign :
  (forall (r : Request) (h : gmap string string) (s : Stream) (res : Result),
     streams r h s res -> Seekable s = false -> asks_range r = false ->
     http.headers_out (response res) !! "Accept-Ranges" = Some "none" /\
     http.headers_out (response res) !! "Content-Type" = Some (ContentType s) /\
     http.body (response res)
       = (if String.eqb (Method r) "HEAD" then [] else pending s)) /\
  (forall reqRange : string,
     strings.HasPrefix reqRange "bytes=" = true ->
     exists startPosition endPosition,
       positions reqRange = Returned (startPosition, endPosition) /\
       (forall first, components reqRange !! 0%nat = Some first ->
          (strconv.Atoi first).2 = Some strconv.ErrSyntax -> startPosition = 0%Z) /\
       (components reqRange !! 1%nat = None -> endPosition = 0%Z) /\
       (forall second, components reqRange !! 1%nat = Some second ->
          second = "" \/ (strconv.Atoi second).2 = Some strconv.ErrSyntax ->
          endPosition = 0%Z)).
Proof.
  split; [|exact positions_defaults].
  intros r h s res Hres Hs Ha.
  destruct (Stream_whole r h s res Hres Hs Ha) as (_ & _ & -> & -> & _).
  destruct (whole_headers_lookup s (ParamBool r "estimateContentLength" false) h)
    as (-> & -> & _).
  done.
Qed.

(** C4 (as amended): on a non-seekable stream [Stream] of either generation
    sets [Content-Length] if and only if the request sets
    [estimateContentLength=true] and is served by the full-request branch, the
    one that answers [Accept-Ranges: none]; its value is then the stream's
    estimated content length in decimal.  In particular the handler sets none
    on the answer to the probe, whatever [estimateContentLength] is, and for a
    [Range] value that is absent or does not begin with ["bytes="] it sets one
    exactly when [estimateContentLength=true]. *)
Theorem content_length_estimate (r : Request) (h : gmap string string) (s : Stream)
    (res : Result) :
  streams r h s res -> Seekable s = false ->
  h !! "Content-Length" = None -> h !! "Accept-Ranges" = None ->
  http.headers_out (response res) !! "Content-Length"
    = (if ParamBool r "estimateContentLength" false && served_whole res
       then Some (strconv.Itoa (EstimatedContentLength s))
       else None) /\
  (is_probe r = true -> served_whole res = false) /\
  (asks_range r = false -> served_whole res = true).
Proof.
  intros Hres Hs Hh Har. unfold served_whole.
  assert (Hw : forall e,
    whole_headers s e (stream_headers s h) !! "Content-Length"
      = (if e && bool_decide (whole_headers s e (stream_headers s h) !! "Accept-Ranges"
                              = Some "none")
         then Some (strconv.Itoa (EstimatedContentLength s)) else None) /\
    bool_decide (whole_headers s e (stream_headers s h) !! "Accept-Ranges" = Some "none")
      = true).
  { intros e. destruct (whole_headers_lookup s e h) as (-> & _ & ->).
    rewrite bool_decide_eq_true_2 by done. rewrite andb_true_r, Hh. done. }
  destruct (asks_range r) eqn:Ha; [destruct (is_probe r) eqn:Hp|].
  - destruct (Stream_probe r h s res Hres Hs Hp) as (_ & -> & _). cbn.
    destruct (probe_headers_lookup (length (pending s)) (stream_headers s h))
      as (_ & -> & _ & ->).
    rewrite bool_decide_eq_false_2 by done. rewrite andb_false_r.
    unfold stream_headers. rewrite !lookup_insert_ne by done. by rewrite Hh.
  - destruct Hres as [api id Hid Hns|api id Hid Hns].
    + destruct (Legacy_Stream_other_range api r h id s Hid Hns Hs Ha Hp)
        as (_ & _ & -> & _).
      destruct (Hw (ParamBool r "estimateContentLength" false)) as [-> ->]. done.
    + destruct (Refactored_Stream_other_range api r h id s Hid Hns Hs Ha Hp)
        as (_ & -> & _). cbn.
      unfold stream_headers. rewrite !lookup_insert_ne by done. rewrite Hh, Har.
      rewrite bool_decide_eq_false_2 by done. by rewrite andb_false_r.
  - rewrite (is_probe_asks r Ha).
    destruct (Stream_whole r h s res Hres Hs Ha) as (_ & _ & -> & _).
    destruct (Hw (ParamBool r "estimateContentLength" false)) as [-> ->]. done.
Qed.

(** C7 (as amended): for a [HEAD] request on a non-seekable stream whose
    [Range] value is absent or does not begin with ["bytes="], [Stream] of
    either generation sets the headers, hands no byte to the body, reads
    nothing from the stream itself and starts exactly one goroutine,
    [io.Copy(io.Discard, stream)]; it does not wait for it: when the handler
    returns, the deferred [Close] has closed the stream with all its bytes
    unread. *)
Theorem HEAD_starts_background_drain (r : Request) (h : gmap string string) (s : Stream)
    (res : Result) :
  streams r h s res -> Seekable s = false -> Method r = "HEAD" ->
  asks_range r = false ->
  http.headers_out (response res) !! "Accept-Ranges" = Some "none" /\
  http.headers_out (response res) !! "Content-Type" = Some (ContentType s) /\
  http.body (response res) = [] /\
  started res = [CopyToDiscard] /\
  resolved res = Some (Close s).
Proof.
  intros Hres Hs Hm Ha.
  destruct (Stream_whole r h s res Hres Hs Ha) as (_ & _ & -> & -> & -> & -> & _).
  destruct (whole_headers_lookup s (ParamBool r "estimateContentLength" false) h)
    as (-> & -> & _).
  rewrite Hm. by cbn.
Qed.
End Whole.

(** C3 as stated fails: ["bytes=x-1"] is no well-formed range, its start
    counts as 0, and both generations answer it as the probe (206,
    [Accept-Ranges: bytes], two zero bytes), not as a request without a
    range. *)
Lemma garbled_range_answered_as_probe :
  http.Header_Get (Header Fixture.garbled) "Range" = "bytes=x-1" /\
  well_formed_range "bytes=x-1" = false /\
  http.status (response (Fixture.stream_legacy Fixture.garbled)) = 206%Z /\
  http.status (response (Fixture.stream_refactored Fixture.garbled)) = 206%Z /\
  http.headers_out (response (Fixture.stream_legacy Fixture.garbled)) !! "Accept-Ranges"
    = Some "bytes" /\
  http.headers_out (response (Fixture.stream_refactored Fixture.garbled)) !! "Accept-Ranges"
    = Some "bytes" /\
  http.body (response (Fixture.stream_legacy Fixture.garbled)) = [x00; x00] /\
  http.body (response (Fixture.stream_refactored Fixture.garbled)) = [x00; x00] /\
  pending Fixture.transcode = [x01; x02; x03; x04; x05].
Proof. repeat split; by vm_compute. Qed.

Lemma range_absent_or_foreign_witness :
  asks_range (Fixture.plain "GET") = false /\
  http.headers_out (response (Fixture.stream_refactored (Fixture.plain "GET")))
    !! "Accept-Ranges" = Some "none" /\
  http.body (response (Fixture.stream_refactored (Fixture.plain "GET")))
    = [x01; x02; x03; x04; x05] /\
  positions "bytes=x-" = Returned (0%Z, 0%Z).
Proof.
  split; [reflexivity|].
  destruct (range_absent_or_foreign (pkgs := Fixture.packages)) as [Hwhole Hpos].
  destruct (Hwhole (Fixture.plain "GET") ∅ Fixture.transcode
              (Fixture.stream_refactored (Fixture.plain "GET"))) as (H1 & _ & H2);
    [by apply (streams_refactored _ _ _ Fixture.api "song")|reflexivity|reflexivity|].
  destruct (Hpos "bytes=x-" eq_refl) as (a & b & Hab & _).
  split; [exact H1|]. split; [exact H2|]. reflexivity.
Defined.

(** C4 as stated fails: the probe asks for an estimated content length on a
    non-seekable stream, and the handler sets no [Content-Length] on its
    answer: whatever length goes out with the two bytes of the body is not the
    stream's estimate. *)
Lemma probe_carries_no_content_length :
  ParamBool (Packages := Fixture.packages) Fixture.probing "estimateContentLength" false
    = true /\
  Seekable Fixture.transcode = false /\
  http.headers_out (response (Fixture.stream_legacy Fixture.probing)) !! "Content-Length"
    = None /\
  http.headers_out (response (Fixture.stream_refactored Fixture.probing)) !! "Content-Length"
    = None.
Proof. repeat split; by vm_compute. Qed.

Lemma content_length_estimate_witness :
  asks_range (Fixture.plain "GET") = false /\
  http.headers_out (response (Fixture.stream_legacy (Fixture.plain "GET")))
    !! "Content-Length" = Some "48000" /\
  served_whole (Fixture.stream_legacy (Fixture.plain "GET")) = true.
Proof.
  split; [reflexivity|].
  destruct (content_length_estimate (pkgs := Fixture.packages) (Fixture.plain "GET") ∅
              Fixture.transcode (Fixture.stream_legacy (Fixture.plain "GET")))
    as (H1 & _ & H2);
    [by apply (streams_legacy _ _ _ Fixture.legacy "song")|reflexivity|reflexivity|
     reflexivity|].
  split; [exact H1|exact (H2 eq_refl)].
Defined.

(** C7 as stated fails, twice.  A [HEAD] request whose range parses to 0-1 is
    answered as the probe: the handler reads the whole stream itself, hands
    two bytes to the body and starts no goroutine.  A [HEAD] request without a
    range starts the goroutine, and returns with the stream closed and its
    five bytes unread: run after the handler has returned, the goroutine is
    left a closed stream and drains nothing of it. *)
Lemma HEAD_not_as_claimed :
  Method Fixture.inquiring = "HEAD" /\
  Seekable Fixture.transcode = false /\
  started (Fixture.stream_legacy Fixture.inquiring) = [] /\
  started (Fixture.stream_refactored Fixture.inquiring) = [] /\
  http.body (response (Fixture.stream_legacy Fixture.inquiring)) = [x00; x00] /\
  http.body (response (Fixture.stream_refactored Fixture.inquiring)) = [x00; x00] /\
  Method (Fixture.plain "HEAD") = "HEAD" /\
  started (Fixture.stream_legacy (Fixture.plain "HEAD")) = [CopyToDiscard] /\
  started (Fixture.stream_refactored (Fixture.plain "HEAD")) = [CopyToDiscard] /\
  closed <$> resolved (Fixture.stream_legacy (Fixture.plain "HEAD")) = Some true /\
  closed <$> resolved (Fixture.stream_refactored (Fixture.plain "HEAD")) = Some true /\
  pending <$> afterwards (Fixture.stream_legacy (Fixture.plain "HEAD"))
    = Some [x01; x02; x03; x04; x05] /\
  pending <$> afterwards (Fixture.stream_refactored (Fixture.plain "HEAD"))
    = Some [x01; x02; x03; x04; x05].
Proof. repeat split; by vm_compute. Qed.

Lemma HEAD_starts_background_drain_witness :
  Method (Fixture.plain "HEAD") = "HEAD" /\
  asks_range (Fixture.plain "HEAD") = false /\
  http.body (response (Fixture.stream_refactored (Fixture.plain "HEAD"))) = [] /\
  started (Fixture.stream_refactored (Fixture.plain "HEAD")) = [CopyToDiscard] /\
  resolved (Fixture.stream_refactored (Fixture.plain "HEAD"))
    = Some (Close Fixture.transcode).
Proof.
  split; [reflexivity|]. split; [reflexivity|].
  destruct (HEAD_starts_background_drain (pkgs := Fixture.packages) (Fixture.plain "HEAD") ∅
              Fixture.transcode (Fixture.stream_refactored (Fixture.plain "HEAD")))
    as (_ & _ & H1 & H2 & H3);
    [by apply (streams_refactored _ _ _ Fixture.api "song")|reflexivity|reflexivity|
     reflexivity|].
  exact (conj H1 (conj H2 H3)).
Defined.

(** ** Downloads *)

Lemma write_all_headers_out (chunks : list (list byte)) (w : http.ResponseWriter) :
  http.headers_out (write_all chunks w) = http.headers_out w.
Proof.
  unfold write_all. revert w. induction chunks as [|p chunks IH]; intros w; [done|].
  cbn [fold_left]. rewrite IH.
  by destruct w as [hd [[code hs]|] bd].
Qed.

Lemma setHeaders_disposition (name : string) (h : gmap string string) :
  http.headers_out (setHeaders name (http.fresh h)) !! "Content-Disposition"
    = Some (fmt.Sprintf_attachment_zip (strings.ReplaceAll name "," "_")).
Proof. unfold setHeaders. cbn. by simplify_map_eq. Qed.

Lemma ReplaceAll_comma (name : string) :
  ~ In ","%char (list_ascii_of_string (strings.ReplaceAll name "," "_")).
Proof.
  induction name as [|c name IH]; cbn; [tauto|].
  destruct (Ascii.eqb_spec c ","); cbn; intros [E|E]; done.
Qed.

Section Downloads.
Context {pkgs : Packages}.

Lemma http_ServeContent_does_not_close (r : Request) (c : Conn) :
  closed (conn_stream (http_ServeContent r c).2) = closed (conn_stream c).
Proof. unfold http_ServeContent. by destruct (ServeContent _ _ _ _ _). Qed.

(** C5, where the code departs from the claim: neither [Download] has the
    deferred [stream.Close()] of [Stream]; whenever it resolves a stream, it
    returns with that stream exactly as open as [NewStream] handed it
    over. *)
Theorem Download_leaves_stream_open (Server : conf.Server) (legacy : Legacy.Router)
    (api : Refactored.Router) (w : http.ResponseWriter) (r : Request)
    (res : Result) (s' : Stream) :
  res = Legacy.Download Server legacy w r \/
  res = Refactored.Download Server api w r ->
  resolved res = Some s' ->
  exists id format maxBitRate s,
    (NewStream (Legacy.streamer legacy) id format maxBitRate = inr s \/
     NewStream (Refactored.streamer api) id format maxBitRate = inr s) /\
    closed s' = closed s.
Proof.
  intros [->| ->].
  - unfold Legacy.Download.
    destruct (requiredParamString r "id") as [e|id]; [done|].
    destruct (negb _); [done|].
    destruct (GetEntityByID _ id) as [e|[]]; try done.
    + destruct (NewStream _ id "raw" 0) as [e|s] eqn:Hns; [done|].
      unfold serving. steps.
      match goal with |- context [http_ServeContent r ?c] =>
        pose proof (http_ServeContent_does_not_close r c) as Hc;
        destruct (http_ServeContent r c) as [o c'] end.
      intros [= <-]. exists id, "raw", 0%Z, s. split; [by left|]. exact Hc.
    + by destruct (Legacy.ZipAlbum _ _).
    + by destruct (Legacy.ZipArtist _ _).
    + by destruct (Legacy.ZipPlaylist _ _).
  - unfold Refactored.Download.
    destruct (requiredParamString r "id") as [e|id]; [done|].
    destruct (negb _); [done|].
    destruct (GetEntityByID _ id) as [e|entity]; [done|].
    destruct (Refactored.effective Server r) as [format maxBitRate].
    destruct entity; try done.
    + destruct (NewStream _ id format maxBitRate) as [e|s] eqn:Hns; [done|].
      unfold serving. steps.
      match goal with |- context [Refactored.serveStream r id ?c] =>
        pose proof (serveStream_does_not_close r id c) as Hc;
        destruct (Refactored.serveStream r id c) as [o c'] end.
      intros [= <-]. exists id, format, maxBitRate, s. split; [by right|]. exact Hc.
    + by destruct (Refactored.ZipAlbum _ _ _ _).
    + by destruct (Refactored.ZipArtist _ _ _ _).
    + by destruct (Refactored.ZipPlaylist _ _ _ _).
Qed.

(** C6 (as amended): for every [Download] request that carries the required
    [id], when [EnableDownloads] is false the handler of either generation
    returns the authorization-failure error whatever the entity is, before
    any entity lookup and with the response untouched. *)
Theorem Download_disabled (Server : conf.Server) (legacy : Legacy.Router)
    (api : Refactored.Router) (w : http.ResponseWriter) (r : Request) (id : string)
    (res : Result) :
  requiredParamString r "id" = inr id ->
  conf.EnableDownloads Server = false ->
  res = Legacy.Download Server legacy w r \/
  res = Refactored.Download Server api w r ->
  err res = Some (newError ErrorAuthorizationFail "downloads are disabled") /\
  calls res = [] /\
  response res = w /\
  resolved res = None.
Proof.
  intros Hid Hd [->| ->]; unfold Legacy.Download, Refactored.Download;
    by rewrite Hid, Hd.
Qed.

(** C8: for every [Download] request with [format] unset and
    [AutoTranscodeDownload] false, the format the handler resolves with is
    ["raw"] and the bitrate is the request's [bitrate], 0 when it has none:
    these are what [NewStream] and the archiver are called with, hence what
    every member of an archive is resolved with. *)
Theorem Download_defaults_to_raw (Server : conf.Server) (api : Refactored.Router)
    (w : http.ResponseWriter) (r : Request) (members : string -> list string) :
  ParamString r "format" = "" ->
  conf.AutoTranscodeDownload Server = false ->
  Refactored.effective Server r = ("raw", ParamInt r "bitrate" 0) /\
  Forall (fun c =>
            (forall t, target c = Some t -> t = ("raw", ParamInt r "bitrate" 0)) /\
            Forall (fun q => q.1.2 = "raw" /\ q.2 = ParamInt r "bitrate" 0)
              (resolutions members c))
    (calls (Refactored.Download Server api w r)).
Proof.
  intros Hf Ha.
  assert (He : Refactored.effective Server r = ("raw", ParamInt r "bitrate" 0)).
  { unfold Refactored.effective. by rewrite Hf, Ha. }
  split; [done|].
  set (ok := fun c : Call =>
    (forall t, target c = Some t -> t = ("raw", ParamInt r "bitrate" 0)) /\
    Forall (fun q : string * string * Z => q.1.2 = "raw" /\ q.2 = ParamInt r "bitrate" 0)
      (resolutions members c)).
  assert (Hlookup : forall id, ok (GetEntityByID_call id)).
  { intros id. split; [done|]. by constructor. }
  assert (Hnew : forall id, ok (NewStream_call id "raw" (ParamInt r "bitrate" 0))).
  { intros id. split; [by intros t [= <-]|]. cbn. by repeat constructor. }
  assert (Hzip : forall k id, ok (ZipAs_call k id "raw" (ParamInt r "bitrate" 0))).
  { intros k id. split; [by intros t [= <-]|]. cbn.
    apply Forall_fmap, Forall_forall. by intros. }
  unfold Refactored.Download. rewrite He.
  destruct (requiredParamString r "id") as [e|id]; [by constructor|].
  destruct (negb _); [by constructor|].
  destruct (GetEntityByID _ id) as [e|entity]; cbn.
  { by repeat constructor. }
  destruct entity; cbn.
  - destruct (NewStream _ _ _ _); unfold serving; cbn;
      repeat (match goal with |- context [match ?x with pair _ _ => _ end] =>
                destruct x end); cbn;
      by repeat (apply Forall_cons; split; [done|]).
  - destruct (Refactored.ZipAlbum _ _ _ _); cbn.
    by repeat (apply Forall_cons; split; [done|]).
  - destruct (Refactored.ZipArtist _ _ _ _); cbn.
    by repeat (apply Forall_cons; split; [done|]).
  - destruct (Refactored.ZipPlaylist _ _ _ _); cbn.
    by repeat (apply Forall_cons; split; [done|]).
  - by repeat (apply Forall_cons; split; [done|]).
Qed.

(** C9: for every download of a collection (album, artist, playlist) the
    [Content-Disposition] of the response names the archive after the
    collection with every comma replaced by an underscore; the name so
    emitted holds no comma. *)
Theorem archive_name_without_comma (Server : conf.Server) (legacy : Legacy.Router)
    (api : Refactored.Router) (h : gmap string string) (r : Request) (id : string)
    (entity : Entity) (name : string) (res : Result) :
  requiredParamString r "id" = inr id ->
  conf.EnableDownloads Server = true ->
  GetEntityByID (Legacy.ds legacy) id = inr entity ->
  GetEntityByID (Refactored.ds api) id = inr entity ->
  collection_name entity = Some name ->
  res = Legacy.Download Server legacy (http.fresh h) r \/
  res = Refactored.Download Server api (http.fresh h) r ->
  http.headers_out (response res) !! "Content-Disposition"
    = Some (fmt.Sprintf_attachment_zip (strings.ReplaceAll name "," "_")) /\
  ~ In ","%char (list_ascii_of_string (strings.ReplaceAll name "," "_")).
Proof.
  intros Hid He Hl1 Hl2 Hn Hres. split; [|apply ReplaceAll_comma].
  destruct Hres as [->| ->]; unfold Legacy.Download, Refactored.Download;
    rewrite Hid, He; cbn; rewrite ?Hl1, ?Hl2;
    try destruct (Refactored.effective Server r) as [format maxBitRate];
    destruct entity; try discriminate; injection Hn as ->;
    match goal with |- context [match ?x with pair _ _ => _ end] => destruct x end;
    cbn; by rewrite write_all_headers_out, setHeaders_disposition.
Qed.
End Downloads.

Lemma Download_leaves_stream_open_witness :
  closed <$> resolved (Fixture.stream_refactored (Fixture.plain "GET")) = Some true /\
  resolved (Fixture.download_refactored Fixture.enabled (Fixture.plain "GET"))
    = Some (advance Fixture.file []) /\
  exists id format maxBitRate s,
    (NewStream (Legacy.streamer Fixture.legacy) id format maxBitRate = inr s \/
     NewStream (Refactored.streamer Fixture.api) id format maxBitRate = inr s) /\
    closed (advance Fixture.file []) = closed s.
Proof.
  split; [by vm_compute|]. split; [by vm_compute|].
  apply (Download_leaves_stream_open (pkgs := Fixture.packages) Fixture.enabled
           Fixture.legacy Fixture.api (http.fresh ∅) (Fixture.plain "GET") _ _
           (or_intror eq_refl)).
  by vm_compute.
Defined.

(** C6 as stated fails: with downloads disabled a request that names no [id]
    is refused for its missing parameter, not for authorization. *)
Lemma Download_without_id_not_forbidden :
  conf.EnableDownloads Fixture.disabled = false /\
  err (Fixture.download_legacy Fixture.disabled Fixture.anonymous)
    = Some (newError ErrorMissingParameter "id") /\
  err (Fixture.download_refactored Fixture.disabled Fixture.anonymous)
    = Some (newError ErrorMissingParameter "id") /\
  newError ErrorMissingParameter "id"
    <> newError ErrorAuthorizationFail "downloads are disabled".
Proof. repeat split; by vm_compute. Qed.

Lemma Download_disabled_witness :
  conf.EnableDownloads Fixture.disabled = false /\
  err (Fixture.download_refactored Fixture.disabled (Fixture.plain "GET"))
    = Some (newError ErrorAuthorizationFail "downloads are disabled") /\
  calls (Fixture.download_refactored Fixture.disabled (Fixture.plain "GET")) = [].
Proof.
  split; [reflexivity|].
  destruct (Download_disabled (pkgs := Fixture.packages) Fixture.disabled Fixture.legacy
              Fixture.api (http.fresh ∅) (Fixture.plain "GET") "song"
              (Fixture.download_refactored Fixture.disabled (Fixture.plain "GET")))
    as (H1 & H2 & _); [reflexivity|reflexivity|by right|].
  exact (conj H1 H2).
Defined.

Lemma Download_defaults_to_raw_witness :
  ParamString (Packages := Fixture.packages)
    (Fixture.request "GET" "" "album" [("bitrate", "128")]) "format" = "" /\
  calls (Fixture.download_refactored Fixture.enabled
           (Fixture.request "GET" "" "album" [("bitrate", "128")]))
    = [GetEntityByID_call "album"; ZipAs_call AlbumKind "album" "raw" 128] /\
  Refactored.effective (pkgs := Fixture.packages) Fixture.enabled
    (Fixture.request "GET" "" "album" [("bitrate", "128")]) = ("raw", 128%Z).
Proof.
  split; [reflexivity|]. split; [by vm_compute|].
  exact (proj1 (Download_defaults_to_raw (pkgs := Fixture.packages) Fixture.enabled
                  Fixture.api (http.fresh ∅)
                  (Fixture.request "GET" "" "album" [("bitrate", "128")])
                  Fixture.members eq_refl eq_refl)).
Defined.

Lemma archive_name_without_comma_witness :
  collection_name (Album "Live, Vol. 1") = Some "Live, Vol. 1" /\
  strings.ReplaceAll "Live, Vol. 1" "," "_" = "Live_ Vol. 1" /\
  http.headers_out
    (response (Fixture.download_refactored Fixture.enabled
                 (Fixture.request "GET" "" "album" [])))
    !! "Content-Disposition"
    = Some (fmt.Sprintf_attachment_zip (strings.ReplaceAll "Live, Vol. 1" "," "_")).
Proof.
  split; [reflexivity|]. split; [reflexivity|].
  apply (archive_name_without_comma (pkgs := Fixture.packages) Fixture.enabled
           Fixture.legacy Fixture.api ∅ (Fixture.request "GET" "" "album" []) "album"
           (Album "Live, Vol. 1") "Live, Vol. 1");
    [reflexivity|reflexivity|reflexivity|reflexivity|reflexivity|by right].
Defined.

(** ** The two generations compared *)

Section Generations.
Context {pkgs : Packages}.

(** X5: apart from a range other than 0-1 on a non-seekable stream, the two
    [Stream] handlers leave the same result behind. *)
Lemma Stream_generations_agree (legacy : Legacy.Router) (api : Refactored.Router)
    (w : http.ResponseWriter) (r : Request) :
  Legacy.streamer legacy = Refactored.streamer api ->
  asks_range r = false \/ is_probe r = true \/
  (forall id s,
     NewStream (Refactored.streamer api) id (ParamString r "format")
       (ParamInt r "maxBitRate" 0) = inr s -> Seekable s = true) ->
  Legacy.Stream legacy w r = Refactored.Stream api w r.
Proof.
  intros Hst Hcase. unfold Legacy.Stream, Refactored.Stream. rewrite Hst.
  destruct (requiredParamString r "id") as [e|id]; [done|].
  destruct (NewStream _ _ _ _) as [e|s] eqn:Hns; [done|].
  unfold serving, Refactored.serveStream. steps.
  destruct (Seekable s) eqn:Hs; [done|].
  destruct Hcase as [Ha|[Hp|Hseek]].
  - unfold asks_range in Ha. rewrite Ha. steps.
    destruct (ParamBool _ _ _); destruct (String.eqb (Method r) "HEAD"); by steps.
  - destruct (is_probe_inv r Hp) as [Ha Hpos]. unfold asks_range in Ha.
    rewrite Ha, Hpos. by steps.
  - specialize (Hseek id s Hns). congruence.
Qed.

(** C10, where the code departs from the claim: a non-seekable stream asked
    for with a range that begins with ["bytes="] and does not parse to 0-1.
    The inline delivery of the first [Stream] sends the stream whole; in
    [serveStream] the [else] belongs to the outer [if], so nothing is
    written beyond the two headers of [Stream]: no [Accept-Ranges], no
    [Content-Type], no body, and the stream is not read. *)
Theorem serveStream_drops_other_ranges (legacy : Legacy.Router) (api : Refactored.Router)
    (r : Request) (h : gmap string string) (id : string) (s : Stream) :
  requiredParamString r "id" = inr id ->
  NewStream (Legacy.streamer legacy) id (ParamString r "format")
    (ParamInt r "maxBitRate" 0) = inr s ->
  NewStream (Refactored.streamer api) id (ParamString r "format")
    (ParamInt r "maxBitRate" 0) = inr s ->
  Seekable s = false -> asks_range r = true -> is_probe r = false ->
  (http.headers_out (response (Legacy.Stream legacy (http.fresh h) r)) !! "Accept-Ranges"
     = Some "none" /\
   http.headers_out (response (Legacy.Stream legacy (http.fresh h) r)) !! "Content-Type"
     = Some (ContentType s) /\
   http.body (response (Legacy.Stream legacy (http.fresh h) r))
     = (if String.eqb (Method r) "HEAD" then [] else pending s)) /\
  (response (Refactored.Stream api (http.fresh h) r) = http.fresh (stream_headers s h) /\
   resolved (Refactored.Stream api (http.fresh h) r) = Some (Close s) /\
   started (Refactored.Stream api (http.fresh h) r) = []).
Proof.
  intros Hid Hns1 Hns2 Hs Ha Hp. split.
  - destruct (Legacy_Stream_other_range legacy r h id s Hid Hns1 Hs Ha Hp)
      as (_ & _ & -> & -> & _).
    destruct (whole_headers_lookup s (ParamBool r "estimateContentLength" false) h)
      as (-> & -> & _).
    done.
  - destruct (Refactored_Stream_other_range api r h id s Hid Hns2 Hs Ha Hp)
      as (_ & -> & -> & -> & _).
    done.
Qed.
End Generations.

Lemma serveStream_drops_other_ranges_witness :
  asks_range Fixture.open_ended = true /\
  is_probe Fixture.open_ended = false /\
  Seekable Fixture.transcode = false /\
  (http.headers_out (response (Fixture.stream_legacy Fixture.open_ended)) !! "Accept-Ranges"
     = Some "none" /\
   http.headers_out (response (Fixture.stream_legacy Fixture.open_ended)) !! "Content-Type"
     = Some "audio/mpeg" /\
   http.body (response (Fixture.stream_legacy Fixture.open_ended))
     = [x01; x02; x03; x04; x05]) /\
  (response (Fixture.stream_refactored Fixture.open_ended)
     = http.fresh (stream_headers Fixture.transcode ∅) /\
   resolved (Fixture.stream_refactored Fixture.open_ended) = Some (Close Fixture.transcode) /\
   started (Fixture.stream_refactored Fixture.open_ended) = []).
Proof.
  split; [reflexivity|]. split; [reflexivity|]. split; [reflexivity|].
  apply (serveStream_drops_other_ranges (pkgs := Fixture.packages) Fixture.legacy
           Fixture.api Fixture.open_ended ∅ "song" Fixture.transcode);
    reflexivity.
Defined.


(** ** Further properties of the handlers *)

Section Handlers.
Context {pkgs : Packages}.

Lemma serveStream_returns (r : Request) (id : string) (c : Conn) :
  (Refactored.serveStream r id c).1 = Returned tt.
Proof.
  unfold Refactored.serveStream. steps.
  destruct (Seekable (conn_stream c)).
  { unfold http_ServeContent. by destruct (ServeContent _ _ _ _ _). }
  destruct (_ && _) eqn:Ha.
  - apply andb_prop in Ha as [_ Hpre].
    destruct (positions_returns _ Hpre) as (a & b & ->). steps.
    by destruct (_ && _).
  - destruct (ParamBool _ _ _); destruct (String.eqb (Method r) "HEAD"); by steps.
Qed.

(** X1: the index expressions of the range parsing ([...[1]], [...[0]],
    [...[1]]) are guarded by the ["bytes="] prefix: none of the four handlers
    panics, whatever the request, the response and the collaborators are. *)
Theorem handlers_do_not_panic (Server : conf.Server) (legacy : Legacy.Router)
    (api : Refactored.Router) (w : http.ResponseWriter) (r : Request) :
  panicked (Legacy.Stream legacy w r) = false /\
  panicked (Refactored.Stream api w r) = false /\
  panicked (Legacy.Download Server legacy w r) = false /\
  panicked (Refactored.Download Server api w r) = false.
Proof.
  repeat split.
  - unfold Legacy.Stream.
    destruct (requiredParamString r "id") as [e|id]; [done|].
    destruct (NewStream _ _ _ _) as [e|s]; [done|].
    unfold serving. steps.
    destruct (Seekable s).
    { unfold http_ServeContent. cbn. by destruct (ServeContent _ _ _ _ _). }
    destruct (_ && _) eqn:Ha.
    + apply andb_prop in Ha as [_ Hpre].
      destruct (positions_returns _ Hpre) as (a & b & ->). steps.
      destruct (_ && _); steps; [done|].
      destruct (ParamBool _ _ _); destruct (String.eqb (Method r) "HEAD"); by steps.
    + steps. destruct (ParamBool _ _ _); destruct (String.eqb (Method r) "HEAD"); by steps.
  - unfold Refactored.Stream.
    destruct (requiredParamString r "id") as [e|id]; [done|].
    destruct (NewStream _ _ _ _) as [e|s]; [done|].
    unfold serving. steps.
    match goal with |- context [Refactored.serveStream r id ?c] =>
      pose proof (serveStream_returns r id c) as Hr;
      destruct (Refactored.serveStream r id c) as [o c'] end.
    cbn in Hr. by rewrite Hr.
  - unfold Legacy.Download.
    destruct (requiredParamString r "id") as [e|id]; [done|].
    destruct (negb _); [done|].
    destruct (GetEntityByID _ id) as [e|[]]; try done.
    + destruct (NewStream _ id "raw" 0) as [e|s]; [done|].
      unfold serving, http_ServeContent. steps. by destruct (ServeContent _ _ _ _ _).
    + by destruct (Legacy.ZipAlbum _ _).
    + by destruct (Legacy.ZipArtist _ _).
    + by destruct (Legacy.ZipPlaylist _ _).
  - unfold Refactored.Download.
    destruct (requiredParamString r "id") as [e|id]; [done|].
    destruct (negb _); [done|].
    destruct (GetEntityByID _ id) as [e|entity]; [done|].
    destruct (Refactored.effective Server r) as [format maxBitRate].
    destruct entity; try done.
    + destruct (NewStream _ id format maxBitRate) as [e|s]; [done|].
      unfold serving. steps.
      match goal with |- context [Refactored.serveStream r id ?c] =>
        pose proof (serveStream_returns r id c) as Hr;
        destruct (Refactored.serveStream r id c) as [o c'] end.
      cbn in Hr. by rewrite Hr.
    + by destruct (Refactored.ZipAlbum _ _ _ _).
    + by destruct (Refactored.ZipArtist _ _ _ _).
    + by destruct (Refactored.ZipPlaylist _ _ _ _).
Qed.

(** X3: [Stream] returns an error only before it touches the response: the error
    is the one of the missing [id] or the one of [NewStream], the response is
    as it was handed in, and no stream and no goroutine is left behind. *)
Theorem Stream_error_before_writing (legacy : Legacy.Router) (api : Refactored.Router)
    (w : http.ResponseWriter) (r : Request) (res : Result) (e : Error) :
  res = Legacy.Stream legacy w r \/ res = Refactored.Stream api w r ->
  err res = Some e ->
  response res = w /\ resolved res = None /\ started res = [] /\
  (requiredParamString r "id" = inl e \/
   exists id, requiredParamString r "id" = inr id /\
     (NewStream (Legacy.streamer legacy) id (ParamString r "format")
        (ParamInt r "maxBitRate" 0) = inl e \/
      NewStream (Refactored.streamer api) id (ParamString r "format")
        (ParamInt r "maxBitRate" 0) = inl e)).
Proof.
  intros [->| ->]; unfold Legacy.Stream, Refactored.Stream;
    destruct (requiredParamString r "id") as [e0|id];
    try (intros [= ->]; by repeat split; try left);
    destruct (NewStream _ _ _ _) as [e0|s] eqn:Hns;
    try (intros [= ->]; repeat split; try done; right; exists id; by eauto);
    unfold serving;
    match goal with |- context [match ?x with pair _ _ => _ end] => destruct x end;
    done.
Qed.

Lemma Stream_seekable (r : Request) (h : gmap string string) (s : Stream)
    (res : Result) :
  streams r h s res -> Seekable s = true ->
  response res
    = (ServeContent (http.fresh (stream_headers s h)) r (Name s) (ModTime s) (pending s)).1 /\
  started res = [] /\
  exists s', resolved res = Some s' /\ closed s' = true.
Proof.
  intros [api id Hid Hns|api id Hid Hns] Hs.
  - unfold Legacy.Stream, serving, http_ServeContent, stream_headers.
    rewrite Hid, Hns. steps. rewrite Hs. cbn.
    destruct (ServeContent _ _ _ _ _). by eauto.
  - rewrite (Refactored_Stream_serves api r h id s Hid Hns).
    unfold Refactored.serveStream, http_ServeContent. steps. rewrite Hs. cbn.
    destruct (ServeContent _ _ _ _ _). by eauto.
Qed.

(** X4: for a seekable stream [Stream] of either generation adds its two headers
    and leaves everything else to [http.ServeContent]: the response is the one
    [ServeContent] produces, no goroutine is started, the stream is closed. *)
Theorem Stream_seekable_delegates (r : Request) (h : gmap string string) (s : Stream)
    (res : Result) :
  streams r h s res -> Seekable s = true ->
  response res
    = (ServeContent (http.fresh (stream_headers s h)) r (Name s) (ModTime s) (pending s)).1 /\
  started res = [] /\
  exists s', resolved res = Some s' /\ closed s' = true.
Proof. exact (Stream_seekable r h s res). Qed.

(** X6: on a non-seekable stream the status is 206 exactly when the request is
    answered as the probe, and 200 otherwise. *)
Theorem Stream_status (r : Request) (h : gmap string string) (s : Stream) (res : Result) :
  streams r h s res -> Seekable s = false ->
  http.status (response res) = (if is_probe r then 206 else 200)%Z.
Proof.
  intros Hres Hs. destruct (asks_range r) eqn:Ha; [destruct (is_probe r) eqn:Hp|].
  - by destruct (Stream_probe r h s res Hres Hs Hp) as (_ & -> & _).
  - destruct Hres as [api id Hid Hns|api id Hid Hns].
    + by destruct (Legacy_Stream_other_range api r h id s Hid Hns Hs Ha Hp)
        as (_ & -> & _).
    + by destruct (Refactored_Stream_other_range api r h id s Hid Hns Hs Ha Hp)
        as (_ & -> & _).
  - rewrite (is_probe_asks r Ha).
    by destruct (Stream_whole r h s res Hres Hs Ha) as (_ & -> & _).
Qed.

(** X7: [Stream] starts at most one goroutine, the drain of the stream, and only
    for a [HEAD] request on a non-seekable stream that is not answered as the
    probe. *)
Theorem goroutine_only_for_HEAD (r : Request) (h : gmap string string) (s : Stream)
    (res : Result) :
  streams r h s res ->
  started res = [] \/
  (started res = [CopyToDiscard] /\ Method r = "HEAD" /\
   Seekable s = false /\ is_probe r = false).
Proof.
  intros Hres. destruct (Seekable s) eqn:Hs.
  { left. by destruct (Stream_seekable r h s res Hres Hs) as (_ & -> & _). }
  destruct (asks_range r) eqn:Ha; [destruct (is_probe r) eqn:Hp|].
  - left. by destruct (Stream_probe r h s res Hres Hs Hp) as (_ & _ & _ & -> & _).
  - destruct Hres as [api id Hid Hns|api id Hid Hns].
    + destruct (Legacy_Stream_other_range api r h id s Hid Hns Hs Ha Hp)
        as (_ & _ & _ & _ & _ & -> & _).
      destruct (String.eqb (Method r) "HEAD") eqn:Hm; [|by left].
      right. by apply String.eqb_eq in Hm.
    + left. by destruct (Refactored_Stream_other_range api r h id s Hid Hns Hs Ha Hp)
        as (_ & _ & _ & -> & _).
  - destruct (Stream_whole r h s res Hres Hs Ha) as (_ & _ & _ & _ & _ & -> & _).
    destruct (String.eqb (Method r) "HEAD") eqn:Hm; [|by left].
    right. apply String.eqb_eq in Hm. by rewrite (is_probe_asks r Ha).
Qed.

(** X8: a non-seekable delivery of [Stream] leaves every header alone that is
    not one of its own six: what was in the header map under another name goes
    out unchanged. *)
Theorem Stream_keeps_other_headers (r : Request) (h : gmap string string) (s : Stream)
    (res : Result) (key : string) :
  streams r h s res -> Seekable s = false -> key ∉ delivery_headers ->
  http.headers_out (response res) !! key = h !! key.
Proof.
  intros Hres Hs Hk.
  assert (Hne : forall name, name ∈ delivery_headers -> name <> key).
  { intros name Hin ->. by apply Hk. }
  assert (H1 := Hne "X-Content-Type-Options"). assert (H2 := Hne "X-Content-Duration").
  assert (H3 := Hne "Content-Range"). assert (H4 := Hne "Accept-Ranges").
  assert (H5 := Hne "Content-Type"). assert (H6 := Hne "Content-Length").
  unfold delivery_headers in *.
  specialize (H1 ltac:(set_solver)). specialize (H2 ltac:(set_solver)).
  specialize (H3 ltac:(set_solver)). specialize (H4 ltac:(set_solver)).
  specialize (H5 ltac:(set_solver)). specialize (H6 ltac:(set_solver)).
  assert (Hsh : stream_headers s h !! key = h !! key).
  { unfold stream_headers. by rewrite !lookup_insert_ne. }
  assert (Hwh : forall e, whole_headers s e (stream_headers s h) !! key = h !! key).
  { intros e. unfold whole_headers. destruct e; by rewrite !lookup_insert_ne. }
  destruct (asks_range r) eqn:Ha; [destruct (is_probe r) eqn:Hp|].
  - destruct (Stream_probe r h s res Hres Hs Hp) as (_ & -> & _). cbn.
    unfold probe_headers. by rewrite !lookup_insert_ne.
  - destruct Hres as [api id Hid Hns|api id Hid Hns].
    + destruct (Legacy_Stream_other_range api r h id s Hid Hns Hs Ha Hp)
        as (_ & _ & -> & _). apply Hwh.
    + by destruct (Refactored_Stream_other_range api r h id s Hid Hns Hs Ha Hp)
        as (_ & -> & _).
  - destruct (Stream_whole r h s res Hres Hs Ha) as (_ & _ & -> & _). apply Hwh.
Qed.

(** X9: the answer to the probe sets [Status: 206] after [WriteHeader(206)]: the
    value lands in the header map and is not part of the response. *)
Theorem probe_Status_header_not_sent (r : Request) (h : gmap string string) (s : Stream)
    (res : Result) :
  streams r h s res -> Seekable s = false -> is_probe r = true ->
  http.header (response res) !! "Status" = Some "206" /\
  http.headers_out (response res) !! "Status" = h !! "Status".
Proof.
  intros Hres Hs Hp.
  destruct (Stream_probe r h s res Hres Hs Hp) as (_ & -> & _). cbn.
  split; [by simplify_map_eq|].
  unfold probe_headers, stream_headers. by rewrite !lookup_insert_ne.
Qed.
End Handlers.

(** ** Further properties of the downloads *)

Lemma write_all_body (chunks : list (list byte)) (w : http.ResponseWriter) :
  http.body (write_all chunks w) = (http.body w ++ concat chunks)%list /\
  http.status (write_all chunks w) = http.status w.
Proof.
  unfold write_all. revert w. induction chunks as [|p chunks IH]; intros w.
  { cbn. by rewrite app_nil_r. }
  cbn [fold_left concat]. destruct (IH (http.Write p w).1) as [-> ->].
  destruct w as [hd [[code hs]|] bd]; cbn; by rewrite app_assoc.
Qed.

Section MoreDownloads.
Context {pkgs : Packages}.

Lemma Download_calls_effective (Server : conf.Server) (api : Refactored.Router)
    (w : http.ResponseWriter) (r : Request) :
  Forall (fun c => forall t, target c = Some t -> t = Refactored.effective Server r)
    (calls (Refactored.Download Server api w r)).
Proof.
  unfold Refactored.Download.
  destruct (requiredParamString r "id") as [e|id]; [by constructor|].
  destruct (negb _); [by constructor|].
  destruct (GetEntityByID _ id) as [e|entity]; cbn.
  { by repeat constructor. }
  destruct (Refactored.effective Server r) as [format maxBitRate].
  destruct entity; cbn.
  - destruct (NewStream _ _ _ _); unfold serving; cbn;
      repeat (match goal with |- context [match ?x with pair _ _ => _ end] =>
                destruct x end); cbn;
      repeat (apply Forall_cons; split; [by try intros t [= <-]|]); by constructor.
  - destruct (Refactored.ZipAlbum _ _ _ _); cbn.
    repeat (apply Forall_cons; split; [by try intros t [= <-]|]); by constructor.
  - destruct (Refactored.ZipArtist _ _ _ _); cbn.
    repeat (apply Forall_cons; split; [by try intros t [= <-]|]); by constructor.
  - destruct (Refactored.ZipPlaylist _ _ _ _); cbn.
    repeat (apply Forall_cons; split; [by try intros t [= <-]|]); by constructor.
  - by repeat constructor.
Qed.

(** X12: a format named by the request wins: the second [Download] hands it, with
    the request's [bitrate] (0 when it has none), to [NewStream] and to the
    archiver, whatever [AutoTranscodeDownload] and the client's profile are. *)
Theorem Download_explicit_format (Server : conf.Server) (api : Refactored.Router)
    (w : http.ResponseWriter) (r : Request) :
  ParamString r "format" <> "" ->
  Forall (fun c => forall t, target c = Some t ->
            t = (ParamString r "format", ParamInt r "bitrate" 0))
    (calls (Refactored.Download Server api w r)).
Proof.
  intros Hf.
  assert (He : Refactored.effective Server r
               = (ParamString r "format", ParamInt r "bitrate" 0)).
  { unfold Refactored.effective.
    destruct (String.eqb_spec (ParamString r "format") ""); [done|done]. }
  rewrite <- He. apply Download_calls_effective.
Qed.

(** X13: with [AutoTranscodeDownload] on and no format in the request, the second
    [Download] takes format and bitrate from the client's transcoding
    profile, and the request's own [bitrate] is dropped; without a profile it
    falls back to ["raw"] with the request's [bitrate]. *)
Theorem Download_profile_format (Server : conf.Server) (api : Refactored.Router)
    (w : http.ResponseWriter) (r : Request) :
  ParamString r "format" = "" ->
  conf.AutoTranscodeDownload Server = true ->
  Forall (fun c => forall t, target c = Some t ->
            t = match TranscodingFrom r with
                | Some transcoding => (TargetFormat transcoding, DefaultBitRate transcoding)
                | None => ("raw", ParamInt r "bitrate" 0)
                end)
    (calls (Refactored.Download Server api w r)).
Proof.
  intros Hf Ha.
  assert (He : Refactored.effective Server r
               = match TranscodingFrom r with
                 | Some transcoding => (TargetFormat transcoding, DefaultBitRate transcoding)
                 | None => ("raw", ParamInt r "bitrate" 0)
                 end).
  { unfold Refactored.effective. rewrite Hf, Ha. cbn. by destruct (TranscodingFrom r). }
  rewrite <- He. apply Download_calls_effective.
Qed.

(** X14: the first [Download] reads neither [format] nor [bitrate]: the only
    resolution it asks for is ["raw"] with bitrate 0, and its archiver is
    handed no format at all. *)
Theorem Legacy_Download_always_raw (Server : conf.Server) (legacy : Legacy.Router)
    (w : http.ResponseWriter) (r : Request) :
  Forall (fun c => forall t, target c = Some t -> t = ("raw", 0%Z))
    (calls (Legacy.Download Server legacy w r)).
Proof.
  unfold Legacy.Download.
  destruct (requiredParamString r "id") as [e|id]; [by constructor|].
  destruct (negb _); [by constructor|].
  destruct (GetEntityByID _ id) as [e|entity]; cbn.
  { by repeat constructor. }
  destruct entity; cbn.
  - destruct (NewStream _ _ _ _); unfold serving; cbn;
      repeat (match goal with |- context [match ?x with pair _ _ => _ end] =>
                destruct x end); cbn;
      repeat (apply Forall_cons; split; [by try intros t [= <-]|]); by constructor.
  - destruct (Legacy.ZipAlbum _ _); cbn. by repeat constructor.
  - destruct (Legacy.ZipArtist _ _); cbn. by repeat constructor.
  - destruct (Legacy.ZipPlaylist _ _); cbn. by repeat constructor.
  - by repeat constructor.
Qed.

(** X15: the download of a collection by the second [Download]: the zip headers
    are set before the archiver runs, the body is what the archiver wrote, and
    the archiver's error is returned as it is, after the headers were set and
    beside whatever was written; no stream is resolved by the handler. *)
Theorem archive_response (Server : conf.Server) (api : Refactored.Router)
    (h : gmap string string) (r : Request) (id : string) (entity : Entity)
    (zip : string -> string -> Z -> list (list byte) * option Error)
    (chunks : list (list byte)) (e : option Error) :
  requiredParamString r "id" = inr id ->
  conf.EnableDownloads Server = true ->
  GetEntityByID (Refactored.ds api) id = inr entity ->
  zip_for (Refactored.archiver api) entity = Some zip ->
  zip id (Refactored.effective Server r).1 (Refactored.effective Server r).2
    = (chunks, e) ->
  let res := Refactored.Download Server api (http.fresh h) r in
  err res = e /\
  http.status (response res) = 200%Z /\
  http.headers_out (response res) !! "Content-Type" = Some "application/zip" /\
  http.body (response res) = concat chunks /\
  resolved res = None /\ started res = [].
Proof.
  intros Hid He Hl Hz Hzip. unfold Refactored.Download.
  rewrite Hid, He, Hl. cbn.
  destruct (Refactored.effective Server r) as [format maxBitRate]. cbn in Hzip.
  destruct entity; try discriminate; injection Hz as <-; rewrite Hzip; cbn;
    rewrite write_all_headers_out;
    destruct (write_all_body chunks (setHeaders Name0 (http.fresh h))) as [-> ->];
    unfold setHeaders; cbn; repeat split; by simplify_map_eq.
Qed.

(** X16: the download of a media file by the second [Download], the resolved
    stream being non-seekable: the response names the file in
    [Content-Disposition] on every path of the delivery, and its status is
    206 exactly when the request is answered as the probe. *)
Theorem Download_media_disposition (Server : conf.Server) (api : Refactored.Router)
    (h : gmap string string) (r : Request) (id : string) (s : Stream) :
  requiredParamString r "id" = inr id ->
  conf.EnableDownloads Server = true ->
  GetEntityByID (Refactored.ds api) id = inr MediaFile ->
  NewStream (Refactored.streamer api) id (Refactored.effective Server r).1
    (Refactored.effective Server r).2 = inr s ->
  Seekable s = false ->
  let res := Refactored.Download Server api (http.fresh h) r in
  http.headers_out (response res) !! "Content-Disposition"
    = Some (fmt.Sprintf_attachment (Name s)) /\
  http.status (response res) = (if is_probe r then 206 else 200)%Z.
Proof.
  intros Hid He Hl Hns Hs. unfold Refactored.Download.
  rewrite Hid, He, Hl. cbn.
  destruct (Refactored.effective Server r) as [format maxBitRate]. cbn in Hns.
  rewrite Hns. unfold serving. steps.
  change (Build_Conn _ _ _)
    with (start (<["Content-Disposition" := fmt.Sprintf_attachment (Name s)]> h) s).
  destruct (asks_range r) eqn:Ha; [destruct (is_probe r) eqn:Hp|].
  - rewrite serveStream_probe by done. cbn. unfold probe_headers. by simplify_map_eq.
  - rewrite serveStream_other_range by done. cbn. by simplify_map_eq.
  - rewrite (is_probe_asks r Ha).
    destruct (serveStream_whole r id
                (<["Content-Disposition" := fmt.Sprintf_attachment (Name s)]> h) s Hs Ha)
      as (_ & Hst & Hh & _).
    destruct (Refactored.serveStream _ _ _) as [o c]. cbn in *.
    rewrite Hst, Hh. split; [|done].
    unfold whole_headers. destruct (ParamBool _ _ _); by simplify_map_eq.
Qed.

(** X17: when [Download] of either generation returns an error it holds no
    stream, and the response is untouched unless the error is the archiver's:
    then the zip headers were set, and the archiver's output written, before
    the error came back. *)
Theorem Download_error_cases (Server : conf.Server) (legacy : Legacy.Router)
    (api : Refactored.Router) (w : http.ResponseWriter) (r : Request)
    (res : Result) (e : Error) :
  res = Legacy.Download Server legacy w r \/
  res = Refactored.Download Server api w r ->
  err res = Some e ->
  resolved res = None /\ started res = [] /\
  (response res = w \/
   exists name chunks, response res = write_all chunks (setHeaders name w)).
Proof.
  intros [->| ->]; unfold Legacy.Download, Refactored.Download;
    destruct (requiredParamString r "id") as [e0|id]; try (by intros; repeat split; left);
    destruct (negb _); try (by intros; repeat split; left);
    destruct (GetEntityByID _ id) as [e0|entity]; try (by intros; repeat split; left);
    try destruct (Refactored.effective Server r) as [format maxBitRate];
    destruct entity; try (by intros; repeat split; left).
  - destruct (NewStream _ _ _ _); [by intros; repeat split; left|].
    unfold serving.
    match goal with |- context [match ?x with pair _ _ => _ end] => destruct x end.
    done.
  - destruct (Legacy.ZipAlbum _ _) as [chunks e1]. intros _. repeat split. by eauto.
  - destruct (Legacy.ZipArtist _ _) as [chunks e1]. intros _. repeat split. by eauto.
  - destruct (Legacy.ZipPlaylist _ _) as [chunks e1]. intros _. repeat split. by eauto.
  - destruct (NewStream _ _ _ _); [by intros; repeat split; left|].
    unfold serving.
    match goal with |- context [match ?x with pair _ _ => _ end] => destruct x end.
    done.
  - destruct (Refactored.ZipAlbum _ _ _ _) as [chunks e1]. intros _. repeat split.
    by eauto.
  - destruct (Refactored.ZipArtist _ _ _ _) as [chunks e1]. intros _. repeat split.
    by eauto.
  - destruct (Refactored.ZipPlaylist _ _ _ _) as [chunks e1]. intros _. repeat split.
    by eauto.
Qed.
End MoreDownloads.

(** ** Further properties of the range parsing and of the archive name *)

(** X10: only what follows the first ["="] up to the next one, and of that only
    the first two components, is looked at: a [Range] value that goes on
    after ["bytes=0-1"] with a further ["-"] or ["="] is answered as the probe
    whatever comes then. *)
Theorem probe_recognised_by_prefix (r : Request) (rest : string) :
  http.Header_Get (Header r) "Range" = "bytes=0-1-" ++ rest \/
  http.Header_Get (Header r) "Range" = "bytes=0-1=" ++ rest ->
  is_probe r = true.
Proof.
  unfold is_probe, asks_range. intros [-> | ->].
  - replace (strings.HasPrefix ("bytes=0-1-" ++ rest) "bytes=") with true
      by (symmetry; by vm_compute).
    unfold positions. simpl.
    by destruct (Split_cons ("" ++ rest) "=") as (p & ps & ->).
  - replace (strings.HasPrefix ("bytes=0-1=" ++ rest) "bytes=") with true
      by (symmetry; by vm_compute).
    unfold positions. by simpl.
Qed.

(** X18: [setHeaders] changes the name byte by byte: a comma becomes an
    underscore where it stands, every other byte stays, and nothing is added
    or dropped. *)
Theorem archive_name_bytewise (name : string) (i : nat) :
  byte_at (strings.ReplaceAll name "," "_") i
    = (fun c => if Ascii.eqb c "," then "_"%char else c) <$> byte_at name i.
Proof.
  unfold byte_at. revert i. induction name as [|c name IH]; intros i; [done|].
  cbn [strings.ReplaceAll]. destruct (Ascii.eqb c ",") eqn:Hc.
  - change ("_" ++ strings.ReplaceAll name "," "_")
      with (String "_" (strings.ReplaceAll name "," "_")).
    destruct i as [|i]; cbn [String.get fmap option_fmap option_map];
      [by rewrite Hc|apply IH].
  - destruct i as [|i]; cbn [String.get fmap option_fmap option_map];
      [by rewrite Hc|apply IH].
Qed.

(** ** Ranges written in decimal *)

Lemma digit_range (c : ascii) (d : Z) : strconv.digit c = Some d -> (0 <= d <= 9)%Z.
Proof.
  unfold strconv.digit. destruct (_ && _) eqn:H; [|done]. intros [= <-].
  apply andb_prop in H as [H1%Z.leb_le H2%Z.leb_le]. lia.
Qed.

Lemma Atoi_fast_acc (d : Decimal.uint) (acc : positive) :
  strconv.Atoi_fast (NilEmpty.string_of_uint d) (Z.pos acc)
    = Some (Z.pos (Pos.of_uint_acc d acc)).
Proof.
  revert acc. induction d; intros acc; [done|..];
    cbn [NilEmpty.string_of_uint strconv.Atoi_fast Pos.of_uint_acc];
    (match goal with |- context [strconv.digit ?c] =>
       let v := eval vm_compute in (strconv.digit c) in
       change (strconv.digit c) with v end);
    cbv iota beta;
    (match goal with |- strconv.Atoi_fast _ ?x = Some (Z.pos (Pos.of_uint_acc _ ?y)) =>
       replace x with (Z.pos y) by lia end);
    apply IHd.
Qed.

Lemma Atoi_fast_uint (d : Decimal.uint) :
  strconv.Atoi_fast (NilEmpty.string_of_uint d) 0 = Some (Z.of_N (Pos.of_uint d)).
Proof.
  induction d; [done|..];
    cbn [NilEmpty.string_of_uint strconv.Atoi_fast Pos.of_uint];
    (match goal with |- context [strconv.digit ?c] =>
       let v := eval vm_compute in (strconv.digit c) in
       change (strconv.digit c) with v end);
    cbv iota beta; [exact IHd|..]; apply Atoi_fast_acc.
Qed.

Lemma Atoi_fast_Itoa (n : Z) : (0 <= n)%Z -> strconv.Atoi_fast (strconv.Itoa n) 0 = Some n.
Proof.
  intros Hn. destruct n as [|p|p]; [done| |lia].
  unfold strconv.Itoa. cbn [Z.to_int NilZero.string_of_int].
  pose proof (DecimalPos.Unsigned.to_uint_nonnil p) as Hnil.
  replace (NilZero.string_of_uint (Pos.to_uint p))
    with (NilEmpty.string_of_uint (Pos.to_uint p))
    by (by destruct (Pos.to_uint p)).
  by rewrite Atoi_fast_uint, DecimalPos.Unsigned.of_to.
Qed.

Lemma Atoi_fast_le (s : string) (m v : Z) :
  strconv.Atoi_fast s m = Some v -> (0 <= m)%Z -> (m <= v)%Z.
Proof.
  revert m. induction s as [|c s IH]; intros m; cbn [strconv.Atoi_fast].
  - intros [= <-]. lia.
  - destruct (strconv.digit c) as [d|] eqn:Hd; [|done]. intros H Hm.
    apply digit_range in Hd. apply IH in H; lia.
Qed.

Lemma Atoi_fast_digits (s : string) (m v : Z) :
  strconv.Atoi_fast s m = Some v ->
  Forall (fun c => is_Some (strconv.digit c)) (list_ascii_of_string s).
Proof.
  revert m. induction s as [|c s IH]; intros m; cbn [strconv.Atoi_fast list_ascii_of_string].
  - by constructor.
  - destruct (strconv.digit c) as [d|] eqn:Hd; [|done]. intros H.
    constructor; [by eauto|by eapply IH].
Qed.

Lemma ParseUint_loop_fast (s : string) (n v : Z) :
  strconv.Atoi_fast s n = Some v -> (0 <= n)%Z -> (v < 2 ^ 63)%Z ->
  strconv.ParseUint_loop s n = (v, None).
Proof.
  revert n. induction s as [|c s IH]; intros n;
    cbn [strconv.Atoi_fast strconv.ParseUint_loop].
  - by intros [= <-].
  - destruct (strconv.digit c) as [d|] eqn:Hd; [|done]. intros H Hn Hv.
    apply digit_range in Hd.
    pose proof (Atoi_fast_le s _ v H ltac:(lia)) as Hle.
    change strconv.maxUint64 with 18446744073709551615%Z.
    change (18446744073709551615 / 10 + 1)%Z with 1844674407370955162%Z.
    change (2 ^ 64)%Z with 18446744073709551616%Z.
    change (2 ^ 63)%Z with 9223372036854775808%Z in Hv.
    destruct (Z.leb_spec 1844674407370955162 n); [lia|].
    cbv zeta. rewrite (Z.mod_small (n * 10 + d)) by lia.
    destruct (Z.ltb_spec (n * 10 + d) (n * 10)); [lia|].
    destruct (Z.ltb_spec 18446744073709551615 (n * 10 + d)); [lia|].
    cbn [orb]. apply IH; [done|lia|done].
Qed.

(** [Atoi] on decimal digits within the range of [int], whichever of its two
    paths the length selects. *)
Lemma Atoi_digits (s : string) (v : Z) :
  s <> "" -> strconv.Atoi_fast s 0 = Some v -> (v < 2 ^ 63)%Z ->
  strconv.Atoi s = (v, None).
Proof.
  intros Hs H Hv. destruct s as [|c s']; [done|].
  assert (Hminus : Ascii.eqb c "-" = false).
  { destruct (Ascii.eqb_spec c "-") as [->|]; [|done]. by vm_compute in H. }
  assert (Hplus : Ascii.eqb c "+" = false).
  { destruct (Ascii.eqb_spec c "+") as [->|]; [|done]. by vm_compute in H. }
  unfold strconv.Atoi. destruct (_ && _).
  - rewrite Hminus, Hplus. cbn [orb andb]. by rewrite H.
  - unfold strconv.ParseInt, strconv.ParseUint. rewrite Hminus, Hplus. cbn [orb].
    rewrite (ParseUint_loop_fast _ 0 v H ltac:(lia) Hv).
    destruct (Z.leb_spec (2 ^ 63) v); [lia|]. done.
Qed.

Lemma Atoi_Itoa (n : Z) :
  (0 <= n < 2 ^ 63)%Z -> strconv.Atoi (strconv.Itoa n) = (n, None).
Proof.
  intros [Hn Hv]. apply Atoi_digits; [|by apply Atoi_fast_Itoa|done].
  pose proof (Atoi_fast_Itoa n Hn) as H. intros E. rewrite E in H.
  cbn in H. injection H as <-.
  by vm_compute in E.
Qed.

Lemma Split_without (s : string) (sep : ascii) :
  Forall (fun c => c <> sep) (list_ascii_of_string s) -> strings.Split s sep = [s].
Proof.
  induction s as [|c s IH]; cbn [list_ascii_of_string strings.Split]; [done|].
  intros [Hc Hs]%Forall_cons. rewrite (IH Hs).
  by destruct (Ascii.eqb_spec c sep).
Qed.

Lemma Split_at (s t : string) (sep : ascii) :
  Forall (fun c => c <> sep) (list_ascii_of_string s) ->
  strings.Split (s ++ String sep t) sep = s :: strings.Split t sep.
Proof.
  induction s as [|c s IH]; cbn [list_ascii_of_string].
  - intros _. change ("" ++ String sep t) with (String sep t).
    cbn [strings.Split]. by rewrite Ascii.eqb_refl.
  - intros [Hc Hs]%Forall_cons.
    change (String c s ++ String sep t) with (String c (s ++ String sep t)).
    cbn [strings.Split]. rewrite (IH Hs).
    by destruct (Ascii.eqb_spec c sep).
Qed.

Lemma chars_app (P : ascii -> Prop) (s t : string) :
  Forall P (list_ascii_of_string s) -> Forall P (list_ascii_of_string t) ->
  Forall P (list_ascii_of_string (s ++ t)).
Proof.
  induction s as [|c s IH]; [done|].
  change (String c s ++ t) with (String c (s ++ t)). cbn [list_ascii_of_string].
  intros [Hc Hs]%Forall_cons Ht. constructor; [done|by apply IH].
Qed.

Lemma Itoa_chars (n : Z) (sep : ascii) :
  (0 <= n)%Z -> strconv.digit sep = None ->
  Forall (fun c => c <> sep) (list_ascii_of_string (strconv.Itoa n)).
Proof.
  intros Hn Hsep.
  eapply Forall_impl; [exact (Atoi_fast_digits _ _ _ (Atoi_fast_Itoa n Hn))|].
  intros c [d Hd] ->. congruence.
Qed.

Lemma HasPrefix_intro (prefix rest : string) :
  strings.HasPrefix (prefix ++ rest) prefix = true.
Proof.
  unfold strings.HasPrefix. induction prefix as [|c p IH].
  - change ("" ++ rest) with rest. by destruct rest.
  - change (String c p ++ rest) with (String c (p ++ rest)). cbn [String.prefix].
    by destruct (ascii_dec c c).
Qed.

(** X11: a range written as two decimal numbers is read back as those numbers,
    and is answered as the probe exactly when they are 0 and 1. *)
Theorem positions_of_decimal_range (r : Request) (a b : Z) :
  (0 <= a < 2 ^ 63)%Z -> (0 <= b < 2 ^ 63)%Z ->
  http.Header_Get (Header r) "Range"
    = "bytes=" ++ strconv.Itoa a ++ "-" ++ strconv.Itoa b ->
  positions (http.Header_Get (Header r) "Range") = Returned (a, b) /\
  (is_probe r = true <-> a = 0%Z /\ b = 1%Z).
Proof.
  intros Ha Hb Hr.
  assert (Hpos : positions (http.Header_Get (Header r) "Range") = Returned (a, b)).
  { rewrite Hr. unfold positions.
    change ("bytes=" ++ strconv.Itoa a ++ "-" ++ strconv.Itoa b)
      with ("bytes" ++ String "=" (strconv.Itoa a ++ String "-" (strconv.Itoa b))).
    rewrite Split_at by (repeat constructor; by vm_compute).
    rewrite Split_without.
    2:{ apply chars_app; [by apply Itoa_chars; [lia|]|].
        constructor; [by vm_compute|by apply Itoa_chars; [lia|]]. }
    cbn [index lookup list_lookup]. cbn [mbind outcome_bind].
    rewrite Split_at by (by apply Itoa_chars; [lia|]).
    rewrite Split_without by (by apply Itoa_chars; [lia|]).
    cbn. rewrite !Atoi_Itoa by done. cbn.
    destruct (String.eqb_spec (strconv.Itoa b) "") as [E|_]; [|done].
    pose proof (Atoi_Itoa b Hb) as H. rewrite E in H. by vm_compute in H. }
  split; [done|].
  unfold is_probe, asks_range. rewrite Hpos, Hr.
  rewrite HasPrefix_intro.
  change ("bytes=" ++ strconv.Itoa a ++ "-" ++ strconv.Itoa b)
    with (String "b" ("ytes=" ++ strconv.Itoa a ++ "-" ++ strconv.Itoa b)).
  cbn [negb andb String.eqb].
  rewrite andb_true_iff, !Z.eqb_eq. done.
Qed.

(** ** The further properties on the concrete server *)

Lemma Stream_closes_witness :
  exists s', resolved (Fixture.stream_legacy Fixture.open_ended) = Some s' /\
             closed s' = true.
Proof.
  apply (Stream_closes (pkgs := Fixture.packages) Fixture.open_ended ∅ Fixture.transcode).
  by apply (streams_legacy _ _ _ Fixture.legacy "song").
Defined.

Lemma Stream_error_before_writing_witness :
  err (Fixture.stream_refactored Fixture.unknown) = Some ErrNotFound /\
  response (Fixture.stream_refactored Fixture.unknown) = http.fresh ∅ /\
  resolved (Fixture.stream_refactored Fixture.unknown) = None.
Proof.
  split; [reflexivity|].
  destruct (Stream_error_before_writing (pkgs := Fixture.packages) Fixture.legacy
              Fixture.api (http.fresh ∅) Fixture.unknown
              (Fixture.stream_refactored Fixture.unknown) ErrNotFound)
    as (H1 & H2 & _); [by right|reflexivity|].
  exact (conj H1 H2).
Defined.

Lemma Stream_seekable_delegates_witness :
  Seekable Fixture.file = true /\
  http.body (response (Fixture.stream_legacy Fixture.raw)) = [x0a; x0b; x0c] /\
  started (Fixture.stream_legacy Fixture.raw) = [].
Proof.
  split; [reflexivity|].
  destruct (Stream_seekable_delegates (pkgs := Fixture.packages) Fixture.raw ∅ Fixture.file
              (Fixture.stream_legacy Fixture.raw)) as (H1 & H2 & _);
    [by apply (streams_legacy _ _ _ Fixture.legacy "song")|reflexivity|].
  split; [by rewrite H1|exact H2].
Defined.

Lemma Stream_generations_agree_witness :
  asks_range (Fixture.plain "HEAD") = false /\
  Fixture.stream_legacy (Fixture.plain "HEAD")
    = Fixture.stream_refactored (Fixture.plain "HEAD").
Proof.
  split; [reflexivity|].
  apply (Stream_generations_agree (pkgs := Fixture.packages) Fixture.legacy Fixture.api
           (http.fresh ∅) (Fixture.plain "HEAD") eq_refl).
  by left.
Defined.

Lemma Stream_status_witness :
  is_probe Fixture.garbled = true /\
  http.status (response (Fixture.stream_refactored Fixture.garbled)) = 206%Z.
Proof.
  split; [reflexivity|].
  apply (Stream_status (pkgs := Fixture.packages) Fixture.garbled ∅ Fixture.transcode);
    [by apply (streams_refactored _ _ _ Fixture.api "song")|reflexivity].
Defined.

Lemma goroutine_only_for_HEAD_witness :
  started (Fixture.stream_legacy (Fixture.plain "HEAD")) = [] \/
  (started (Fixture.stream_legacy (Fixture.plain "HEAD")) = [CopyToDiscard] /\
   Method (Fixture.plain "HEAD") = "HEAD" /\
   Seekable Fixture.transcode = false /\ is_probe (Fixture.plain "HEAD") = false).
Proof.
  apply (goroutine_only_for_HEAD (pkgs := Fixture.packages) (Fixture.plain "HEAD") ∅
           Fixture.transcode).
  by apply (streams_legacy _ _ _ Fixture.legacy "song").
Defined.

Lemma Stream_keeps_other_headers_witness :
("Cache-Control" ∉ delivery_headers) /\
  http.headers_out
    (response (Refactored.Stream (pkgs := Fixture.packages) Fixture.api
                 (http.fresh {[ "Cache-Control" := "no-store" ]}) Fixture.probing))
    !! "Cache-Control" = Some "no-store".
Proof.
  assert (Hk : "Cache-Control" ∉ delivery_headers).
  { unfold delivery_headers. rewrite !not_elem_of_cons. repeat split; try done.
    apply not_elem_of_nil. }
  split; [exact Hk|].
  rewrite (Stream_keeps_other_headers (pkgs := Fixture.packages) Fixture.probing
             {[ "Cache-Control" := "no-store" ]} Fixture.transcode _ "Cache-Control");
    [reflexivity|by apply (streams_refactored _ _ _ Fixture.api "song")|reflexivity|
     exact Hk].
Defined.

Lemma probe_Status_header_not_sent_witness :
  is_probe Fixture.probing = true /\
  http.header (response (Fixture.stream_legacy Fixture.probing)) !! "Status"
    = Some "206" /\
  http.headers_out (response (Fixture.stream_legacy Fixture.probing)) !! "Status" = None.
Proof.
  split; [reflexivity|].
  destruct (probe_Status_header_not_sent (pkgs := Fixture.packages) Fixture.probing ∅
              Fixture.transcode (Fixture.stream_legacy Fixture.probing)) as [H1 H2];
    [by apply (streams_legacy _ _ _ Fixture.legacy "song")|reflexivity|reflexivity|].
  split; [exact H1|exact H2].
Defined.

Lemma probe_recognised_by_prefix_witness :
  http.Header_Get (Header Fixture.trailing) "Range" = "bytes=0-1-" ++ "9,20-30" /\
  is_probe Fixture.trailing = true.
Proof.
  split; [reflexivity|].
  apply (probe_recognised_by_prefix Fixture.trailing "9,20-30"). by left.
Defined.

Lemma Download_explicit_format_witness :
  ParamString (Packages := Fixture.packages) Fixture.explicit "format" = "mp3" /\
  calls (Fixture.download_refactored Fixture.auto Fixture.explicit)
    = [GetEntityByID_call "album"; ZipAs_call AlbumKind "album" "mp3" 192] /\
  Forall (fun c => forall t, target c = Some t -> t = ("mp3", 192%Z))
    (calls (Fixture.download_refactored Fixture.auto Fixture.explicit)).
Proof.
  split; [reflexivity|]. split; [by vm_compute|].
  apply (Download_explicit_format (pkgs := Fixture.packages) Fixture.auto Fixture.api
           (http.fresh ∅) Fixture.explicit).
  by vm_compute.
Defined.

Lemma Download_profile_format_witness :
  ParamInt (Packages := Fixture.packages) Fixture.profiled "bitrate" 0 = 320%Z /\
  calls (Fixture.download_refactored Fixture.auto Fixture.profiled)
    = [GetEntityByID_call "album"; ZipAs_call AlbumKind "album" "opus" 96] /\
  Forall (fun c => forall t, target c = Some t -> t = ("opus", 96%Z))
    (calls (Fixture.download_refactored Fixture.auto Fixture.profiled)).
Proof.
  split; [by vm_compute|]. split; [by vm_compute|].
  apply (Download_profile_format (pkgs := Fixture.packages) Fixture.auto Fixture.api
           (http.fresh ∅) Fixture.profiled); reflexivity.
Defined.

Lemma archive_response_witness :
  zip_for (Refactored.archiver Fixture.api) (Album "Live, Vol. 1")
    = Some (Refactored.ZipAlbum (Refactored.archiver Fixture.api)) /\
  err (Fixture.download_refactored Fixture.enabled Fixture.explicit) = None /\
  http.status (response (Fixture.download_refactored Fixture.enabled Fixture.explicit))
    = 200%Z /\
  http.headers_out (response (Fixture.download_refactored Fixture.enabled Fixture.explicit))
    !! "Content-Type" = Some "application/zip" /\
  http.body (response (Fixture.download_refactored Fixture.enabled Fixture.explicit))
    = concat Fixture.zip_bytes /\
  resolved (Fixture.download_refactored Fixture.enabled Fixture.explicit) = None /\
  started (Fixture.download_refactored Fixture.enabled Fixture.explicit) = [].
Proof.
  split; [reflexivity|].
  apply (archive_response (pkgs := Fixture.packages) Fixture.enabled Fixture.api ∅
           Fixture.explicit "album" (Album "Live, Vol. 1")
           (Refactored.ZipAlbum (Refactored.archiver Fixture.api)) Fixture.zip_bytes None);
    reflexivity.
Defined.

Lemma Download_media_disposition_witness :
  Seekable Fixture.transcode = false /\
  http.headers_out
    (response (Fixture.download_refactored Fixture.enabled
                 (Fixture.request "GET" "bytes=0-1" "song" [("format", "mp3")])))
    !! "Content-Disposition" = Some (fmt.Sprintf_attachment "song.mp3") /\
  http.status
    (response (Fixture.download_refactored Fixture.enabled
                 (Fixture.request "GET" "bytes=0-1" "song" [("format", "mp3")])))
    = 206%Z.
Proof.
  split; [reflexivity|].
  apply (Download_media_disposition (pkgs := Fixture.packages) Fixture.enabled Fixture.api ∅
           (Fixture.request "GET" "bytes=0-1" "song" [("format", "mp3")]) "song"
           Fixture.transcode); reflexivity.
Defined.

Lemma Download_error_cases_witness :
  err (Fixture.download_legacy Fixture.enabled Fixture.unknown) = Some ErrNotFound /\
  resolved (Fixture.download_legacy Fixture.enabled Fixture.unknown) = None /\
  started (Fixture.download_legacy Fixture.enabled Fixture.unknown) = [] /\
  (response (Fixture.download_legacy Fixture.enabled Fixture.unknown) = http.fresh ∅ \/
   exists name chunks,
     response (Fixture.download_legacy Fixture.enabled Fixture.unknown)
       = write_all chunks (setHeaders name (http.fresh ∅))).
Proof.
  split; [reflexivity|].
  apply (Download_error_cases (pkgs := Fixture.packages) Fixture.enabled Fixture.legacy
           Fixture.api (http.fresh ∅) Fixture.unknown _ ErrNotFound);
    [by left|reflexivity].
Defined.

Lemma positions_of_decimal_range_witness :
  http.Header_Get (Header (Fixture.request "GET" "bytes=100-4095" "song" [])) "Range"
    = "bytes=" ++ strconv.Itoa 100 ++ "-" ++ strconv.Itoa 4095 /\
  positions (http.Header_Get (Header (Fixture.request "GET" "bytes=100-4095" "song" []))
               "Range") = Returned (100%Z, 4095%Z) /\
  (is_probe (Fixture.request "GET" "bytes=100-4095" "song" []) = true
   <-> 100%Z = 0%Z /\ 4095%Z = 1%Z).
Proof.
  split; [reflexivity|].
  apply (positions_of_decimal_range (Fixture.request "GET" "bytes=100-4095" "song" [])
           100 4095); [split; by vm_compute|split; by vm_compute|reflexivity].
Defined.
